(** * An e-commerce REST backend (users, products, orders): authentication
    and resource-ownership model

    Shallow embedding of [src/index.js].  Each Express route handler is a
    function from the request and the database to the new database and the
    response; a [try]/[catch] is an [option] computation with a fallback
    response.  The third-party packages the handlers call ([jsonwebtoken],
    [bcrypt], [mongoose] and the MongoDB server) are interfaces (type
    classes of operations); what is assumed of them is stated as separate
    law predicates, named in the theorems that need them.  A small
    executable instance of every interface shows that the laws can be met
    and lets the handlers run on concrete requests.

    Scope of the model: the database always answers (connection failures
    are not modelled, so a handler's 500 branch is reached only through an
    error thrown by a package); request bodies hold JSON scalars (no nested
    objects or arrays); numbers are integers; uploaded files appear only as
    the file name multer stored them under. *)

From stdpp Require Import base option list strings gmap.
From Stdlib Require Import ZArith Lia Ascii String.

#[local] Open Scope Z_scope.
#[local] Open Scope string_scope.

(** ** JavaScript values and strings *)

Module Js.

(** The values a parsed request body can hold for a key (JSON scalars; a
    multipart form only ever yields [JStr]).  Numbers are integral. *)
Inductive JsValue : Type :=
  | JUndefined
  | JNull
  | JBool (b : bool)
  | JNum (n : Z)
  | JStr (s : string).

#[global] Instance JsValue_eq_dec : EqDecision JsValue.
Proof. solve_decision. Defined.

(** ToBoolean *)
Definition truthy (v : JsValue) : bool :=
  match v with
  | JUndefined | JNull => false
  | JBool b => b
  | JNum n => negb (Z.eqb n 0)
  | JStr s => negb (String.eqb s "")
  end.

(** [a || b] *)
Definition or_else (a b : JsValue) : JsValue := if truthy a then a else b.

(** [obj.key] on a parsed body: a missing key reads as [undefined]. *)
Definition field (obj : gmap string JsValue) (key : string) : JsValue :=
  default JUndefined (obj !! key).

(** [s.split(sep)] for a one-character separator. *)
Fixpoint split (sep : ascii) (s : string) : list string :=
  match s with
  | EmptyString => [EmptyString]
  | String c r =>
      if Ascii.eqb c sep then EmptyString :: split sep r
      else match split sep r with
           | [] => [String c EmptyString]
           | w :: ws => String c w :: ws
           end
  end.

(** Truthiness of a string-or-undefined (a missing value is [None]). *)
Definition truthy_str (o : option string) : bool :=
  match o with
  | None => false
  | Some s => negb (String.eqb s "")
  end.

(** No character of [s] is [c]. *)
Fixpoint lacks (c : ascii) (s : string) : bool :=
  match s with
  | EmptyString => true
  | String a r => negb (Ascii.eqb a c) && lacks c r
  end.

(** ASCII lower-casing, the case folding of the [i] regex option. *)
Definition lower (c : ascii) : ascii :=
  let n := nat_of_ascii c in
  if (Nat.leb 65 n && Nat.leb n 90)%bool then ascii_of_nat (n + 32) else c.

Definition is_ascii7 (c : ascii) : bool := Nat.ltb (nat_of_ascii c) 128.

Fixpoint all_chars (f : ascii -> bool) (s : string) : bool :=
  match s with
  | EmptyString => true
  | String a r => f a && all_chars f r
  end.

Fixpoint lowercase (s : string) : string :=
  match s with
  | EmptyString => EmptyString
  | String a r => String (lower a) (lowercase r)
  end.

(** [p] is a prefix of [s] up to ASCII case. *)
Fixpoint prefix_ci (p s : string) : bool :=
  match p, s with
  | EmptyString, _ => true
  | String a p', String b s' => Ascii.eqb (lower a) (lower b) && prefix_ci p' s'
  | String _ _, EmptyString => false
  end.

(** [s] contains [q] as a substring up to ASCII case. *)
Fixpoint contains_ci (q s : string) : bool :=
  prefix_ci q s ||
  match s with
  | EmptyString => false
  | String _ s' => contains_ci q s'
  end.

End Js.
Import Js.

(** ** The third-party packages, as interfaces *)

(** *** jsonwebtoken *)

(** The object [generateToken] signs: [{ id, username }]. *)
Record JwtPayload : Type := {
  payload_id : string;
  payload_username : string
}.

(** The decoded payload [jwt.verify] hands to its callback: the signed
    fields plus the registered claims [iat] and [exp] (seconds). *)
Record JwtClaims : Type := {
  claim_id : string;
  claim_username : string;
  claim_iat : Z;
  claim_exp : Z
}.

Inductive JwtError : Type :=
  | JsonWebTokenError
  | TokenExpiredError
  | NotBeforeError.

(** [jwt_sign payload secret expiresIn clock] ([None]: the call throws) and
    [jwt_verify token secret clock]; [clock] is the package's reading of the
    time in whole seconds, [expiresIn] is in seconds. *)
Class Jsonwebtoken : Type := {
  jwt_sign : JwtPayload -> string -> Z -> Z -> option string;
  jwt_verify : string -> string -> Z -> JwtError + JwtClaims
}.

(** Signing succeeds under a configured (non-empty) secret. *)
Definition jwt_sign_defined (J : Jsonwebtoken) : Prop :=
  forall p secret ttl t, secret <> "" -> is_Some (jwt_sign p secret ttl t).

(** A token is a non-empty string without blanks (three base64url parts
    joined by dots). *)
Definition jwt_token_shape (J : Jsonwebtoken) : Prop :=
  forall p secret ttl t token,
    jwt_sign p secret ttl t = Some token ->
    token <> "" /\ lacks " " token = true.

(** Verifying, under the signing secret, a token signed at [t] with lifetime
    [ttl]: the payload comes back while the clock is below [t + ttl], and
    the token is expired from [t + ttl] on. *)
Definition jwt_sign_verify (J : Jsonwebtoken) : Prop :=
  forall p secret ttl t token t',
    jwt_sign p secret ttl t = Some token ->
    jwt_verify token secret t' =
    if Z.ltb t' (t + ttl)
    then inr {| claim_id := payload_id p; claim_username := payload_username p;
                claim_iat := t; claim_exp := t + ttl |}
    else inl TokenExpiredError.

(** *** bcrypt *)

(** [bcrypt_hash data saltRounds salt] ([salt] is the randomness drawn by
    the call) and [bcrypt_compare data encrypted]. *)
Class Bcrypt : Type := {
  bcrypt_hash : string -> Z -> string -> string;
  bcrypt_compare : string -> string -> bool
}.

Definition bcrypt_hash_nonempty (B : Bcrypt) : Prop :=
  forall data rounds salt, bcrypt_hash data rounds salt <> "".

Definition bcrypt_hash_not_plaintext (B : Bcrypt) : Prop :=
  forall data rounds salt, bcrypt_hash data rounds salt <> data.

Definition bcrypt_compare_hash (B : Bcrypt) : Prop :=
  forall data rounds salt, bcrypt_compare data (bcrypt_hash data rounds salt) = true.

(** *** mongoose and the MongoDB server *)

(** Schema-type casts ([None]: the value is rejected, by a CastError or, on
    a required path, for casting to null), query conditions on a String
    path ([None]: a CastError is thrown), and the server's
    [{ $regex: pattern, $options: 'i' }] ([None]: the pattern is rejected). *)
Class Mongoose : Type := {
  ObjectId : Type;
  ObjectId_eq_dec :: EqDecision ObjectId;
  oid_str : ObjectId -> string;
  castObjectId : JsValue -> option ObjectId;
  castString : JsValue -> option string;
  castNumber : JsValue -> option Z;
  query_string : JsValue -> option (string -> bool);
  regex_i : string -> option (string -> bool)
}.

Definition cast_oid_str (M : Mongoose) : Prop :=
  forall o : ObjectId, castObjectId (JStr (oid_str o)) = Some o.

Definition cast_string_str (M : Mongoose) : Prop :=
  forall s, castString (JStr s) = Some s.

Definition cast_number_num (M : Mongoose) : Prop :=
  forall n, castNumber (JNum n) = Some n.

Definition query_string_str (M : Mongoose) : Prop :=
  forall s, exists f, query_string (JStr s) = Some f /\ forall x, f x = String.eqb s x.

(** Characters that stand for themselves in a regular expression:
    printable ASCII other than the metacharacters. *)
Definition regex_plain (c : ascii) : bool :=
  let n := nat_of_ascii c in
  Nat.leb 32 n && Nat.leb n 126 &&
  negb (existsb (Ascii.eqb c)
          ["092"; "^"; "$"; "."; "["; "]"; "|"; "("; ")"; "?"; "*"; "+"; "{"; "}"]%char).

(** A pattern of plain characters matches, unanchored and without regard to
    case, as a substring. *)
Definition regex_plain_substring (M : Mongoose) : Prop :=
  forall q, all_chars regex_plain q = true ->
    exists f, regex_i q = Some f /\
      forall s, all_chars is_ascii7 s = true -> f s = contains_ci q s.

(** The pattern [.] matches any string holding a character other than a
    line feed. *)
Definition regex_dot_any (M : Mongoose) : Prop :=
  exists f, regex_i "." = Some f /\
    forall s, f s = negb (all_chars (Ascii.eqb "010"%char) s).

(** ** The data model and the request handlers *)

Section Model.

Context {J : Jsonwebtoken} {B : Bcrypt} {M : Mongoose}.

(** userSchema *)
Record User : Type := {
  u_id : ObjectId;
  u_username : string;
  u_email : string;
  u_password : string;
  u_profileImage : option string
}.

(** productSchema *)
Record Product : Type := {
  p_id : ObjectId;
  p_name : string;
  p_price : Z;
  p_category : string;
  p_description : string;
  p_image : option string
}.

(** orderSchema; [o_createdAt] is in milliseconds. *)
Record Order : Type := {
  o_id : ObjectId;
  o_productId : ObjectId;
  o_userId : ObjectId;
  o_quantity : Z;
  o_status : string;
  o_createdAt : Z
}.

(** The three collections, in insertion order. *)
Record Db : Type := {
  users : list User;
  products : list Product;
  orders : list Order
}.

(** What a request reads from outside the database: the configured secret,
    [Date.now()] in milliseconds, the [_id] mongoose draws for a new
    document and the randomness bcrypt draws for a salt. *)
Record Env : Type := {
  JWT_SECRET : string;
  now : Z;
  new_id : ObjectId;
  salt : string
}.

(** The routes, each with its path parameter. *)
Inductive Route : Type :=
  | POST_users_register
  | GET_users
  | GET_users_id (_id : string)
  | PUT_users_id (_id : string)
  | DELETE_users_id (id : string)
  | POST_users_login
  | POST_products
  | GET_products
  | GET_products_id (_id : string)
  | PUT_products_id (_id : string)
  | DELETE_products_id (id : string)
  | POST_orders
  | GET_orders
  | GET_orders_id (id : string)
  | PUT_orders_id (id : string)
  | DELETE_orders_id (id : string).

(** [authorization] is [req.headers["authorization"]], [body] is [req.body],
    [query] is [req.query.query] and [file] is [req.file.filename] (set by
    multer when the form carries the image). *)
Record Request : Type := {
  route : Route;
  authorization : option string;
  body : gmap string JsValue;
  query : option string;
  file : option string
}.

(** What is serialised into the response. [ErrorMessage] is
    [{ message: error.message }], whose text the throwing package chooses. *)
Inductive Payload : Type :=
  | Text (text : string)
  | Message (message : string)
  | ErrorMessage
  | LoginJson (message token : string)
  | UserJson (user : User)
  | UsersJson (docs : list User)
  | ProductJson (product : Product)
  | ProductsJson (docs : list Product)
  | OrderJson (order : Order)
  | PopulatedJson (order : Order) (product : option Product)
  | PopulatedListJson (docs : list (Order * option Product)).

Record Response : Type := {
  status : Z;
  payload : Payload
}.

Definition Result : Type := Db * Response.

(** [res.status(code).json(p)]; [res.json(p)] is [json 200 p]. *)
Definition json (code : Z) (p : Payload) : Response :=
  {| status := code; payload := p |}.

(** [res.sendStatus(code)]: the status with its reason phrase as body. *)
Definition sendStatus (code : Z) : Response :=
  {| status := code;
     payload := Text (if Z.eqb code 401 then "Unauthorized"
                      else if Z.eqb code 403 then "Forbidden"
                      else "") |}.

(** [try { ... } catch { fallback }]: [None] is a thrown error. *)
Definition try_catch {A : Type} (attempt : option A) (fallback : A) : A :=
  default fallback attempt.

(** *** Collections *)

Definition has_id {A : Type} (key : A -> ObjectId) (o : ObjectId) (d : A) : bool :=
  bool_decide (key d = o).

(** [Model.findById(id)]: throws when [id] does not cast, else the first
    document with that [_id], if any. *)
Definition findById {A : Type} (key : A -> ObjectId) (id : string) (docs : list A)
  : option (option A) :=
  o ← castObjectId (JStr id); Some (List.find (has_id key o) docs).

(** [doc.save()] on a loaded document: it replaces the stored document with
    the same [_id]. *)
Fixpoint replace_doc {A : Type} (key : A -> ObjectId) (d : A) (docs : list A) : list A :=
  match docs with
  | [] => []
  | x :: rest =>
      if has_id key (key d) x then d :: rest else x :: replace_doc key d rest
  end.

(** The removal done by [Model.findByIdAndDelete]. *)
Fixpoint delete_doc {A : Type} (key : A -> ObjectId) (o : ObjectId) (docs : list A) : list A :=
  match docs with
  | [] => []
  | x :: rest => if has_id key o x then rest else x :: delete_doc key o rest
  end.

Definition nonempty (s : string) : bool := negb (String.eqb s "").

(** Validation on save: every [required] String path is a non-empty string. *)
Definition User_valid (u : User) : bool :=
  nonempty (u_username u) && nonempty (u_email u) && nonempty (u_password u).

Definition Product_valid (p : Product) : bool :=
  nonempty (p_name p) && nonempty (p_category p) && nonempty (p_description p).

Definition Order_valid (o : Order) : bool :=
  bool_decide (o_status o ∈ ["pending"; "completed"; "canceled"]).

(** The unique indexes on [username] and [email]: no other document holds
    either value. *)
Definition User_unique (u : User) (docs : list User) : bool :=
  forallb (fun x => has_id u_id (u_id u) x ||
                    (negb (String.eqb (u_username x) (u_username u)) &&
                     negb (String.eqb (u_email x) (u_email u)))) docs.

Definition set_users (db : Db) (l : list User) : Db :=
  {| users := l; products := products db; orders := orders db |}.

Definition set_products (db : Db) (l : list Product) : Db :=
  {| users := users db; products := l; orders := orders db |}.

Definition set_orders (db : Db) (l : list Order) : Db :=
  {| users := users db; products := products db; orders := l |}.

(** [Query.populate("productId")]: the reference is replaced by the product
    it resolves to, or by null. *)
Definition populate (db : Db) (o : Order) : Order * option Product :=
  (o, List.find (has_id p_id (o_productId o)) (products db)).

(** *** Tokens and passwords *)

Definition generateToken (env : Env) (user : User) : option string :=
  jwt_sign {| payload_id := oid_str (u_id user); payload_username := u_username user |}
           (JWT_SECRET env) 3600 (now env / 1000).

(** [bcrypt.hash] rejects data that is not a string. *)
Definition hashPassword (env : Env) (password : JsValue) : option string :=
  match password with
  | JStr data => let saltRounds := 10 in Some (bcrypt_hash data saltRounds (salt env))
  | _ => None
  end.

(** [bcrypt.compare(password, encrypted)]; it rejects a password that is
    not a string. *)
Definition compare (password : JsValue) (encrypted : string) : option bool :=
  match password with
  | JStr data => Some (bcrypt_compare data encrypted)
  | _ => None
  end.

(** [req.headers["authorization"]?.split(" ")[1]] *)
Definition bearer_token (req : Request) : option string :=
  h ← authorization req; split " " h !! 1%nat.

(** Every stored password is an output of [hashPassword]. *)
Definition passwords_hashed (db : Db) : Prop :=
  Forall (fun u => exists data salt, u_password u = bcrypt_hash data 10 salt) (users db).

(** The middleware: [next] is the rest of the route and receives [req.user].
    A token that is undefined or the empty string is falsy. *)
Definition authenticateToken (env : Env) (req : Request) (db : Db)
    (next : JwtClaims -> Db -> Result) : Result :=
  let token := bearer_token req in
  if negb (truthy_str token) then (db, sendStatus 401)
  else
    match jwt_verify (default "" token) (JWT_SECRET env) (now env / 1000) with
    | inl err => (db, sendStatus 403)
    | inr user => next user db
    end.

(** *** /api/users *)

(** [new Model(doc).save()]: the document is validated and inserted; the
    insertion fails on an [_id] already in the collection. *)
Definition insert_doc {A : Type} (key : A -> ObjectId) (d : A) (docs : list A)
  : option (list A) :=
  if forallb (fun x => negb (has_id key (key d) x)) docs then Some (docs ++ [d])%list else None.

Definition User_insert (u : User) (db : Db) : option Db :=
  if User_valid u && User_unique u (users db)
  then set_users db <$> insert_doc u_id u (users db)
  else None.

Definition User_save (u : User) (db : Db) : option Db :=
  if User_valid u && User_unique u (users db)
  then Some (set_users db (replace_doc u_id u (users db)))
  else None.

Definition register (env : Env) (req : Request) (db : Db) : Result :=
  let username := field (body req) "username" in
  let email := field (body req) "email" in
  let password := field (body req) "password" in
  let profileImage := file req in
  try_catch
    (by_username ← query_string username;
     by_email ← query_string email;
     let existingUser :=
       List.find (fun u => by_username (u_username u) || by_email (u_email u)) (users db) in
     match existingUser with
     | Some _ => Some (db, json 400 (Message "Username or email already exists"))
     | None =>
         hashedPassword ← hashPassword env password;
         username' ← castString username;
         email' ← castString email;
         let newUser := {| u_id := new_id env; u_username := username'; u_email := email';
                           u_password := hashedPassword; u_profileImage := profileImage |} in
         db' ← User_insert newUser db;
         Some (db', json 201 (Message "User registered successfully"))
     end)
    (db, json 500 (Message "User registration failed")).

Definition get_users (db : Db) : Result :=
  (db, json 200 (UsersJson (users db))).

Definition get_user (_id : string) (db : Db) : Result :=
  try_catch
    (user ← findById u_id _id (users db);
     match user with
     | None => Some (db, json 404 (Message "User not found"))
     | Some user => Some (db, json 200 (UserJson user))
     end)
    (db, json 500 ErrorMessage).

(** The deletion of the replaced image file ([fs.unlink], whose failure is
    only logged) acts on the file system and leaves the database and the
    response as they are. *)
Definition update_user (env : Env) (_id : string) (req : Request) (db : Db) : Result :=
  let username := field (body req) "username" in
  let email := field (body req) "email" in
  let password := field (body req) "password" in
  let profileImage := file req in
  try_catch
    (user ← findById u_id _id (users db);
     match user with
     | None => Some (db, json 404 (Message "User not found"))
     | Some user =>
         username' ← castString (or_else username (JStr (u_username user)));
         email' ← castString (or_else email (JStr (u_email user)));
         password' ← (if truthy password then hashPassword env password
                      else Some (u_password user));
         let profileImage' :=
           if truthy_str profileImage then profileImage else u_profileImage user in
         let user' := {| u_id := u_id user; u_username := username'; u_email := email';
                         u_password := password'; u_profileImage := profileImage' |} in
         db' ← User_save user' db;
         Some (db', json 200 (UserJson user'))
     end)
    (db, json 500 (Message "Failed to update user")).

Definition delete_user (id : string) (db : Db) : Result :=
  try_catch
    (o ← castObjectId (JStr id);
     match List.find (has_id u_id o) (users db) with
     | None => Some (db, json 404 (Message "User not found"))
     | Some _ =>
         Some (set_users db (delete_doc u_id o (users db)),
               json 200 (Message "User deleted successfully"))
     end)
    (db, json 500 (Message "Failed to delete user")).

Definition login (env : Env) (req : Request) (db : Db) : Result :=
  let email := field (body req) "email" in
  let password := field (body req) "password" in
  try_catch
    (by_email ← query_string email;
     let user := List.find (fun u => by_email (u_email u)) (users db) in
     match user with
     | None => Some (db, json 400 (Message "Invalid email or password"))
     | Some user =>
         matches ← compare password (u_password user);
         if negb matches
         then Some (db, json 400 (Message "Invalid email or password"))
         else token ← generateToken env user;
              Some (db, json 200 (LoginJson "Login successful" token))
     end)
    (db, json 500 (Message "Login failed")).

(** *** /api/products *)

Definition Product_insert (p : Product) (db : Db) : option Db :=
  if Product_valid p then set_products db <$> insert_doc p_id p (products db) else None.

Definition Product_save (p : Product) (db : Db) : option Db :=
  if Product_valid p then Some (set_products db (replace_doc p_id p (products db)))
  else None.

Definition create_product (env : Env) (req : Request) (db : Db) : Result :=
  let name := field (body req) "name" in
  let price := field (body req) "price" in
  let category := field (body req) "category" in
  let description := field (body req) "description" in
  let image := file req in
  try_catch
    (name' ← castString name;
     price' ← castNumber price;
     category' ← castString category;
     description' ← castString description;
     let newProduct := {| p_id := new_id env; p_name := name'; p_price := price';
                          p_category := category'; p_description := description';
                          p_image := image |} in
     db' ← Product_insert newProduct db;
     Some (db', json 201 (ProductJson newProduct)))
    (db, json 400 ErrorMessage).

Definition list_products (req : Request) (db : Db) : Result :=
  let query := query req in
  try_catch
    (filter ← (if truthy_str query then regex_i (default "" query)
               else Some (fun _ => true));
     let found := List.filter (fun p => filter (p_name p)) (products db) in
     Some (db, json 200 (ProductsJson found)))
    (db, json 500 (Message "Error fetching products")).

Definition get_product (_id : string) (db : Db) : Result :=
  try_catch
    (product ← findById p_id _id (products db);
     match product with
     | None => Some (db, json 404 (Message "Product not found"))
     | Some product => Some (db, json 200 (ProductJson product))
     end)
    (db, json 500 ErrorMessage).

(** As for users, the deletion of the replaced image file is outside the
    database. *)
Definition update_product (_id : string) (req : Request) (db : Db) : Result :=
  let name := field (body req) "name" in
  let price := field (body req) "price" in
  let category := field (body req) "category" in
  let description := field (body req) "description" in
  let image := file req in
  try_catch
    (product ← findById p_id _id (products db);
     match product with
     | None => Some (db, json 404 (Message "Product not found"))
     | Some product =>
         name' ← castString (or_else name (JStr (p_name product)));
         price' ← castNumber (or_else price (JNum (p_price product)));
         category' ← castString (or_else category (JStr (p_category product)));
         description' ← castString (or_else description (JStr (p_description product)));
         let image' := if truthy_str image then image else p_image product in
         let product' := {| p_id := p_id product; p_name := name'; p_price := price';
                            p_category := category'; p_description := description';
                            p_image := image' |} in
         db' ← Product_save product' db;
         Some (db', json 200 (ProductJson product'))
     end)
    (db, json 400 ErrorMessage).

Definition delete_product (id : string) (db : Db) : Result :=
  try_catch
    (o ← castObjectId (JStr id);
     match List.find (has_id p_id o) (products db) with
     | None => Some (db, json 404 (Message "Product not found"))
     | Some _ =>
         Some (set_products db (delete_doc p_id o (products db)),
               json 200 (Message "Product deleted successfully"))
     end)
    (db, json 500 (Message "Failed to delete product")).

(** *** /api/orders *)

Definition Order_insert (o : Order) (db : Db) : option Db :=
  if Order_valid o then set_orders db <$> insert_doc o_id o (orders db) else None.

Definition Order_save (o : Order) (db : Db) : option Db :=
  if Order_valid o then Some (set_orders db (replace_doc o_id o (orders db))) else None.

Definition create_order (env : Env) (user : JwtClaims) (req : Request) (db : Db) : Result :=
  let productId := field (body req) "productId" in
  let quantity := field (body req) "quantity" in
  try_catch
    (productId' ← castObjectId productId;
     userId' ← castObjectId (JStr (claim_id user));
     quantity' ← castNumber quantity;
     let newOrder := {| o_id := new_id env; o_productId := productId'; o_userId := userId';
                        o_quantity := quantity'; o_status := "pending";
                        o_createdAt := now env |} in
     db' ← Order_insert newOrder db;
     Some (db', json 201 (OrderJson newOrder)))
    (db, json 400 ErrorMessage).

Definition list_orders (user : JwtClaims) (db : Db) : Result :=
  try_catch
    (userId ← castObjectId (JStr (claim_id user));
     let found := List.filter (fun o => bool_decide (o_userId o = userId)) (orders db) in
     Some (db, json 200 (PopulatedListJson (List.map (populate db) found))))
    (db, json 500 ErrorMessage).

Definition get_order (id : string) (db : Db) : Result :=
  try_catch
    (order ← findById o_id id (orders db);
     match order with
     | None => Some (db, json 404 (Message "Order not found"))
     | Some order =>
         Some (db, json 200 (PopulatedJson order (snd (populate db order))))
     end)
    (db, json 500 ErrorMessage).

Definition update_order (id : string) (req : Request) (db : Db) : Result :=
  let quantity := field (body req) "quantity" in
  let status := field (body req) "status" in
  try_catch
    (order ← findById o_id id (orders db);
     match order with
     | None => Some (db, json 404 (Message "Order not found"))
     | Some order =>
         quantity' ← (if truthy quantity then castNumber quantity
                      else Some (o_quantity order));
         status' ← (if truthy status then castString status else Some (o_status order));
         let order' := {| o_id := o_id order; o_productId := o_productId order;
                          o_userId := o_userId order; o_quantity := quantity';
                          o_status := status'; o_createdAt := o_createdAt order |} in
         db' ← Order_save order' db;
         Some (db', json 200 (OrderJson order'))
     end)
    (db, json 400 ErrorMessage).

Definition delete_order (id : string) (db : Db) : Result :=
  try_catch
    (o ← castObjectId (JStr id);
     match List.find (has_id o_id o) (orders db) with
     | None => Some (db, json 404 (Message "Order not found"))
     | Some _ =>
         Some (set_orders db (delete_doc o_id o (orders db)),
               json 200 (Message "Order deleted successfully"))
     end)
    (db, json 500 (Message "Failed to delete order")).

(** *** The application: every route with its middleware and handler *)

Definition app (env : Env) (req : Request) (db : Db) : Result :=
  match route req with
  | POST_users_register => register env req db
  | GET_users => get_users db
  | GET_users_id _id => get_user _id db
  | PUT_users_id _id => update_user env _id req db
  | DELETE_users_id id => delete_user id db
  | POST_users_login => login env req db
  | POST_products => create_product env req db
  | GET_products => list_products req db
  | GET_products_id _id => get_product _id db
  | PUT_products_id _id => update_product _id req db
  | DELETE_products_id id => delete_product id db
  | POST_orders =>
      authenticateToken env req db (fun user db => create_order env user req db)
  | GET_orders =>
      authenticateToken env req db (fun user db => list_orders user db)
  | GET_orders_id id =>
      authenticateToken env req db (fun _ db => get_order id db)
  | PUT_orders_id id =>
      authenticateToken env req db (fun _ db => update_order id req db)
  | DELETE_orders_id id =>
      authenticateToken env req db (fun _ db => delete_order id db)
  end.

Definition is_order_route (r : Route) : bool :=
  match r with
  | POST_orders | GET_orders | GET_orders_id _ | PUT_orders_id _ | DELETE_orders_id _ => true
  | _ => false
  end.

End Model.

Arguments User {M}.
Arguments Product {M}.
Arguments Order {M}.
Arguments Db {M}.
Arguments Env {M}.
Arguments Payload {M}.
Arguments Response {M}.
Arguments Result {M}.

(** ** An executable instance of the interfaces

    Small stand-ins for the three packages, enough to run the handlers: a
    token is a self-delimiting text encoding of the secret, the payload and
    the two timestamps; a hash is the encoded salt followed by the data; an
    ObjectId is an integer; the regular expressions are the patterns made
    of plain characters and dots. *)

Module Toy.

Definition bit (b : bool) : ascii := if b then "1"%char else "0"%char.

Definition unbit (c : ascii) : bool := Ascii.eqb c "1".

Fixpoint enc_pos (p : positive) : string :=
  match p with
  | xH => "."
  | xO q => String "0" (enc_pos q)
  | xI q => String "1" (enc_pos q)
  end.

Fixpoint dec_pos (s : string) : option (positive * string) :=
  match s with
  | EmptyString => None
  | String c r =>
      if Ascii.eqb c "." then Some (xH, r)
      else if Ascii.eqb c "0" then '(q, r') ← dec_pos r; Some (xO q, r')
      else if Ascii.eqb c "1" then '(q, r') ← dec_pos r; Some (xI q, r')
      else None
  end.

Definition enc_Z (z : Z) : string :=
  match z with
  | Z0 => "z"
  | Zpos p => String "p" (enc_pos p)
  | Zneg p => String "n" (enc_pos p)
  end.

Definition dec_Z (s : string) : option (Z * string) :=
  match s with
  | EmptyString => None
  | String c r =>
      if Ascii.eqb c "z" then Some (0, r)
      else if Ascii.eqb c "p" then '(p, r') ← dec_pos r; Some (Zpos p, r')
      else if Ascii.eqb c "n" then '(p, r') ← dec_pos r; Some (Zneg p, r')
      else None
  end.

Fixpoint enc_str (s : string) : string :=
  match s with
  | EmptyString => "."
  | String (Ascii b0 b1 b2 b3 b4 b5 b6 b7) r =>
      String "c" (String (bit b0) (String (bit b1) (String (bit b2) (String (bit b3)
        (String (bit b4) (String (bit b5) (String (bit b6) (String (bit b7)
          (enc_str r)))))))))
  end.

Fixpoint dec_str (s : string) : option (string * string) :=
  match s with
  | EmptyString => None
  | String c r =>
      if Ascii.eqb c "." then Some (EmptyString, r)
      else
        match r with
        | String c0 (String c1 (String c2 (String c3
            (String c4 (String c5 (String c6 (String c7 r'))))))) =>
            if Ascii.eqb c "c"
            then '(x, rest) ← dec_str r';
                 Some (String (Ascii (unbit c0) (unbit c1) (unbit c2) (unbit c3)
                                     (unbit c4) (unbit c5) (unbit c6) (unbit c7)) x,
                       rest)
            else None
        | _ => None
        end
  end.

Definition sign (p : JwtPayload) (secret : string) (expiresIn clock : Z) : option string :=
  if String.eqb secret "" then None
  else Some (enc_str secret ++ enc_str (payload_id p) ++ enc_str (payload_username p)
               ++ enc_Z clock ++ enc_Z (clock + expiresIn)).

Definition decode (token : string) : option (string * JwtClaims) :=
  '(secret, r1) ← dec_str token;
  '(i, r2) ← dec_str r1;
  '(u, r3) ← dec_str r2;
  '(issued, r4) ← dec_Z r3;
  '(expires, r5) ← dec_Z r4;
  if String.eqb r5 ""
  then Some (secret, {| claim_id := i; claim_username := u;
                        claim_iat := issued; claim_exp := expires |})
  else None.

Definition verify (token secret : string) (clock : Z) : JwtError + JwtClaims :=
  match decode token with
  | None => inl JsonWebTokenError
  | Some (signer, claims) =>
      if negb (String.eqb signer secret) || String.eqb secret "" then inl JsonWebTokenError
      else if Z.ltb clock (claim_exp claims) then inr claims
      else inl TokenExpiredError
  end.

Definition jwt : Jsonwebtoken := {| jwt_sign := sign; jwt_verify := verify |}.

Definition hash (data : string) (rounds : Z) (salt : string) : string :=
  enc_str salt ++ data.

Definition hash_matches (data encrypted : string) : bool :=
  match dec_str encrypted with
  | Some (_, digest) => String.eqb digest data
  | None => false
  end.

Definition bcrypt : Bcrypt := {| bcrypt_hash := hash; bcrypt_compare := hash_matches |}.

Definition cast_oid (v : JsValue) : option Z :=
  match v with
  | JStr s =>
      match dec_Z s with
      | Some (z, EmptyString) => Some z
      | _ => None
      end
  | _ => None
  end.

Definition cast_str (v : JsValue) : option string :=
  match v with
  | JStr s => Some s
  | _ => None
  end.

Definition cast_num (v : JsValue) : option Z :=
  match v with
  | JNum n => Some n
  | _ => None
  end.

Definition condition (v : JsValue) : option (string -> bool) :=
  match v with
  | JStr s => Some (String.eqb s)
  | JUndefined | JNull => Some (fun _ => false)
  | _ => None
  end.

(** The pattern matches a prefix of the subject: a dot stands for any
    character but the line feed, any other character for itself up to case. *)
Fixpoint match_here (pattern s : string) : bool :=
  match pattern, s with
  | EmptyString, _ => true
  | String a pattern', String b s' =>
      (if Ascii.eqb a "." then negb (Ascii.eqb "010" b)
       else Ascii.eqb (lower a) (lower b)) && match_here pattern' s'
  | String _ _, EmptyString => false
  end.

Fixpoint search (pattern s : string) : bool :=
  match_here pattern s ||
  match s with
  | EmptyString => false
  | String _ s' => search pattern s'
  end.

Definition regex (pattern : string) : option (string -> bool) :=
  if all_chars (fun c => regex_plain c || Ascii.eqb c ".") pattern
  then Some (search pattern)
  else None.

Definition mongoose : Mongoose :=
  {| ObjectId := Z;
     oid_str := enc_Z;
     castObjectId := cast_oid;
     castString := cast_str;
     castNumber := cast_num;
     query_string := condition;
     regex_i := regex |}.

End Toy.

(** ** A sample deployment on the executable instance: two users, one
    product and one order of the first user. *)

Module Sample.

#[local] Existing Instance Toy.jwt.
#[local] Existing Instance Toy.bcrypt.
#[local] Existing Instance Toy.mongoose.

Definition env : Env :=
  {| JWT_SECRET := "secret"; now := 1700000000000; new_id := 100; salt := "salt" |}.

Definition alice : User :=
  {| u_id := 1; u_username := "alice"; u_email := "a@x.com";
     u_password := Toy.hash "pw1" 10 "s1"; u_profileImage := None |}.

Definition bob : User :=
  {| u_id := 2; u_username := "bob"; u_email := "b@x.com";
     u_password := Toy.hash "pw2" 10 "s2"; u_profileImage := None |}.

Definition widget : Product :=
  {| p_id := 10; p_name := "abc"; p_price := 5; p_category := "tools";
     p_description := "a widget"; p_image := None |}.

Definition order1 : Order :=
  {| o_id := 20; o_productId := 10; o_userId := 1; o_quantity := 2;
     o_status := "pending"; o_createdAt := 1600000000000 |}.

Definition db : Db :=
  {| users := [alice; bob]; products := [widget]; orders := [order1] |}.

(** The order [alice] gets by ordering a product id that no product has,
    and the database after it. *)
Definition orphan : Order :=
  {| o_id := 100; o_productId := 99; o_userId := 1; o_quantity := 1;
     o_status := "pending"; o_createdAt := 1700000000000 |}.

Definition db_orphan : Db :=
  {| users := [alice; bob]; products := [widget]; orders := [order1; orphan] |}.

Definition request (r : Route) (auth : option string) (b : list (string * JsValue))
    (q : option string) : Request :=
  {| route := r; authorization := auth; body := list_to_map b; query := q; file := None |}.

(** The token a login of [alice] at [now env] returns, and its claims. *)
Definition alice_token : string :=
  Eval vm_compute in default "" (generateToken env alice).

Definition alice_claims : JwtClaims :=
  {| claim_id := Toy.enc_Z 1; claim_username := "alice";
     claim_iat := 1700000000; claim_exp := 1700003600 |}.

Definition bearer (token : string) : option string := Some ("Bearer " ++ token).

(** Requests. *)
Definition list_orders_anonymous : Request := request GET_orders None [] None.

Definition list_orders_alice : Request :=
  request GET_orders (bearer alice_token) [] None.

(** [alice] orders the widget and names [bob] as owner in the body. *)
Definition create_order_alice : Request :=
  request POST_orders (bearer alice_token)
    [("productId", JStr (Toy.enc_Z 10)); ("quantity", JNum 3);
     ("userId", JStr (Toy.enc_Z 2))] None.

Definition create_orphan_alice : Request :=
  request POST_orders (bearer alice_token)
    [("productId", JStr (Toy.enc_Z 99)); ("quantity", JNum 1)] None.

Definition register_carol : Request :=
  request POST_users_register None
    [("username", JStr "carol"); ("email", JStr "c@x.com"); ("password", JStr "pw3")]
    None.

Definition price_to_10 : Request :=
  request (PUT_products_id (Toy.enc_Z 10)) None [("price", JNum 10)] None.


Definition search_AB : Request := request GET_products None [] (Some "AB").

Definition search_dot : Request := request GET_products None [] (Some ".").

Definition login_unknown : Request :=
  request POST_users_login None
    [("email", JStr "z@x.com"); ("password", JStr "pw1")] None.

Definition login_wrong_password : Request :=
  request POST_users_login None
    [("email", JStr "a@x.com"); ("password", JStr "guess")] None.

Definition get_alice : Request :=
  request (GET_users_id (oid_str (u_id alice))) None [] None.

End Sample.

(** ** Store invariants and what each route writes *)

Section Invariants.

Context {M : Mongoose}.

(** The [_id] index of every collection and the unique indexes on the
    username and the email of users. *)
Definition indexes_hold (db : Db) : Prop :=
  NoDup (List.map u_id (users db)) /\
  NoDup (List.map u_username (users db)) /\
  NoDup (List.map u_email (users db)) /\
  NoDup (List.map p_id (products db)) /\
  NoDup (List.map o_id (orders db)).

(** Every stored document passes the validation of its schema. *)
Definition schema_holds (db : Db) : Prop :=
  Forall (fun u => User_valid u = true) (users db) /\
  Forall (fun p => Product_valid p = true) (products db) /\
  Forall (fun o => Order_valid o = true) (orders db).

(** What one request can do to the database: nothing, or one insertion of
    a validated new document with a fresh [_id], one save of a validated
    document in place of the stored one with its [_id], or one deletion by
    [_id]; users are inserted and saved under their unique indexes. *)
Inductive Write (db : Db) : Db -> Prop :=
  | Write_nothing : Write db db
  | Insert_user (u : User) :
      User_valid u = true -> User_unique u (users db) = true ->
      Forall (fun x => u_id x <> u_id u) (users db) ->
      Write db (set_users db (users db ++ [u])%list)
  | Save_user (old new : User) :
      List.find (has_id u_id (u_id new)) (users db) = Some old ->
      User_valid new = true -> User_unique new (users db) = true ->
      Write db (set_users db (replace_doc u_id new (users db)))
  | Delete_user (o : ObjectId) :
      Write db (set_users db (delete_doc u_id o (users db)))
  | Insert_product (p : Product) :
      Product_valid p = true ->
      Forall (fun x => p_id x <> p_id p) (products db) ->
      Write db (set_products db (products db ++ [p])%list)
  | Save_product (old new : Product) :
      List.find (has_id p_id (p_id new)) (products db) = Some old ->
      Product_valid new = true ->
      Write db (set_products db (replace_doc p_id new (products db)))
  | Delete_product (o : ObjectId) :
      Write db (set_products db (delete_doc p_id o (products db)))
  | Insert_order (r : Order) :
      Order_valid r = true ->
      Forall (fun x => o_id x <> o_id r) (orders db) ->
      Write db (set_orders db (orders db ++ [r])%list)
  | Save_order (old new : Order) :
      List.find (has_id o_id (o_id new)) (orders db) = Some old ->
      Order_valid new = true ->
      o_userId new = o_userId old -> o_productId new = o_productId old ->
      o_createdAt new = o_createdAt old ->
      Write db (set_orders db (replace_doc o_id new (orders db)))
  | Delete_order (o : ObjectId) :
      Write db (set_orders db (delete_doc o_id o (orders db))).

(** No cast accepts [undefined] on a required path. *)
Definition cast_undefined (M : Mongoose) : Prop :=
  castObjectId JUndefined = None /\ castString JUndefined = None /\
  castNumber JUndefined = None.

(** The routes whose handler saves or deletes in a collection. *)
Definition writes_users (r : Route) : bool :=
  match r with
  | POST_users_register | PUT_users_id _ | DELETE_users_id _ => true
  | _ => false
  end.

Definition writes_products (r : Route) : bool :=
  match r with
  | POST_products | PUT_products_id _ | DELETE_products_id _ => true
  | _ => false
  end.

Definition writes_orders (r : Route) : bool :=
  match r with
  | POST_orders | PUT_orders_id _ | DELETE_orders_id _ => true
  | _ => false
  end.

End Invariants.

(** The server at work: the database after a sequence of requests, each
    with what it reads from outside, starting from empty collections. *)
Section Serving.

Context {J : Jsonwebtoken} {B : Bcrypt} {M : Mongoose}.

Definition empty_db : Db := {| users := []; products := []; orders := [] |}.

Definition serve (requests : list (Env * Request)) (db : Db) : Db :=
  fold_left (fun db '(env, req) => (app env req db).1) requests db.

End Serving.


(** ** More visits to the sample deployment *)

Module Visits.

Import Sample.

#[local] Existing Instance Toy.jwt.
#[local] Existing Instance Toy.bcrypt.
#[local] Existing Instance Toy.mongoose.

(** The token a login of [bob] at [now env] returns, and its claims. *)
Definition bob_token : string :=
  Eval vm_compute in default "" (generateToken env bob).

Definition bob_claims : JwtClaims :=
  {| claim_id := Toy.enc_Z 2; claim_username := "bob";
     claim_iat := 1700000000; claim_exp := 1700003600 |}.

(** The order of [alice], read by herself and by [bob]. *)
Definition read_order1_alice : Request :=
  request (GET_orders_id (Toy.enc_Z 20)) (bearer alice_token) [] None.

Definition read_order1_bob : Request :=
  request (GET_orders_id (Toy.enc_Z 20)) (bearer bob_token) [] None.

(** The token of [alice] under the Basic scheme. *)
Definition list_orders_basic : Request :=
  request GET_orders (Some ("Basic " ++ alice_token)) [] None.

Definition login_no_password : Request :=
  request POST_users_login None [("email", JStr "a@x.com")] None.

Definition login_unknown_no_password : Request :=
  request POST_users_login None [("email", JStr "z@x.com")] None.

(** [bob] changes his password; his record after that. *)
Definition bob_new_password : Request :=
  request (PUT_users_id (Toy.enc_Z 2)) None [("password", JStr "new")] None.

Definition bob_rehashed : User :=
  {| u_id := 2; u_username := "bob"; u_email := "b@x.com";
     u_password := Toy.hash "new" 10 "salt"; u_profileImage := None |}.

Definition register_no_password : Request :=
  request POST_users_register None
    [("username", JStr "carol"); ("email", JStr "c@x.com")] None.

Definition login_carol : Request :=
  request POST_users_login None
    [("email", JStr "c@x.com"); ("password", JStr "pw3")] None.


(** [bob] asks for the email of [alice], and for a new username. *)
Definition bob_takes_email : Request :=
  request (PUT_users_id (Toy.enc_Z 2)) None [("email", JStr "a@x.com")] None.

Definition bob_renames : Request :=
  request (PUT_users_id (Toy.enc_Z 2)) None [("username", JStr "robert")] None.

Definition order_without_quantity : Request :=
  request POST_orders (bearer alice_token) [("productId", JStr (Toy.enc_Z 10))] None.

Definition nameless_product : Request :=
  request POST_products None
    [("name", JStr ""); ("price", JNum 0); ("category", JStr "tools");
     ("description", JStr "no name")] None.

End Visits.

(** ** Properties of the handlers *)

Section Proofs.

Context {J : Jsonwebtoken} {B : Bcrypt} {M : Mongoose}.

(** *** Strings *)

Lemma split_lacks (sep : ascii) (s : string) :
  lacks sep s = true -> split sep s = [s].
Proof.
  induction s as [|c s IH]; simpl; [done|].
  intros [Hc Hs]%andb_prop. apply negb_true_iff in Hc.
  by rewrite Hc, IH.
Qed.

Lemma split_bearer (token : string) :
  lacks " " token = true -> split " " ("Bearer " ++ token) !! 1%nat = Some token.
Proof.
  intros H. cbv beta iota fix delta [append]. simpl.
  by rewrite (split_lacks _ _ H).
Qed.

Lemma truthy_str_Some (s : string) : s <> "" -> truthy_str (Some s) = true.
Proof. intros H. simpl. apply negb_true_iff. by apply String.eqb_neq. Qed.

Lemma nonempty_true (s : string) : nonempty s = true <-> s <> "".
Proof. unfold nonempty. rewrite negb_true_iff. apply String.eqb_neq. Qed.

(** *** The authentication middleware *)

Lemma authenticateToken_no_token env req db next :
  truthy_str (bearer_token req) = false ->
  authenticateToken env req db next = (db, sendStatus 401).
Proof. intros H. unfold authenticateToken. by rewrite H. Qed.

Lemma authenticateToken_verified env req db next token :
  bearer_token req = Some token -> token <> "" ->
  authenticateToken env req db next =
  match jwt_verify token (JWT_SECRET env) (now env / 1000) with
  | inl _ => (db, sendStatus 403)
  | inr user => next user db
  end.
Proof.
  intros Ht Hne. unfold authenticateToken.
  by rewrite Ht, (truthy_str_Some _ Hne).
Qed.

Lemma app_order_route env req db :
  is_order_route (route req) = true ->
  exists handler, app env req db = authenticateToken env req db handler.
Proof. unfold app. destruct (route req); try discriminate; intros _; eauto. Qed.

(** C1. A request to one of the five /api/orders routes that carries no
    bearer token (no Authorization header, or a header whose second
    blank-separated word is missing or empty) is answered 401; one whose
    token fails verification (bad signature, expired) is answered 403.  The
    two answers differ, and in both cases the answer and the database do not
    depend on the route's handler: it is not run. *)
Theorem C1_orders_need_valid_token (env : Env) (req : Request) (db : Db) :
  is_order_route (route req) = true ->
  (authorization req = None \/ truthy_str (bearer_token req) = false ->
     app env req db = (db, sendStatus 401) /\
     forall next, authenticateToken env req db next = (db, sendStatus 401)) /\
  (forall token err,
     bearer_token req = Some token -> token <> "" ->
     jwt_verify token (JWT_SECRET env) (now env / 1000) = inl err ->
     app env req db = (db, sendStatus 403) /\
     forall next, authenticateToken env req db next = (db, sendStatus 403)) /\
  status (sendStatus 401) = 401 /\ status (sendStatus 403) = 403 /\
  sendStatus 401 <> sendStatus 403.
Proof.
  intros Hroute. destruct (app_order_route env req db Hroute) as [handler Happ].
  split; [|split; [|done]].
  - intros Hmissing.
    assert (Hfalsy : truthy_str (bearer_token req) = false).
    { destruct Hmissing as [Hheader|Hfalsy]; [|done].
      unfold bearer_token. by rewrite Hheader. }
    split; [rewrite Happ|intros next]; by apply authenticateToken_no_token.
  - intros token err Htoken Hne Hverify.
    split; [rewrite Happ|intros next];
      rewrite (authenticateToken_verified _ _ _ _ token) by done;
      by rewrite Hverify.
Qed.

(** C3. Under a configured secret a token is issued for every user U.
    Presented as [Bearer <token>] while the clock (in whole seconds) is
    below issuance plus 3600, the middleware passes to the handler exactly
    U's id and username (with the issue and expiry times); from issuance
    plus 3600 on it answers 403, which is not the 401 answer. *)
Theorem C3_token_round_trip (env : Env) (U : User) :
  jwt_sign_defined J -> jwt_token_shape J -> jwt_sign_verify J ->
  JWT_SECRET env <> "" ->
  exists token,
    generateToken env U = Some token /\
    forall (env' : Env) (req : Request) (db : Db) (next : JwtClaims -> Db -> Result),
      JWT_SECRET env' = JWT_SECRET env ->
      authorization req = Some ("Bearer " ++ token) ->
      (now env' / 1000 < now env / 1000 + 3600 ->
         jwt_verify token (JWT_SECRET env') (now env' / 1000) =
           inr {| claim_id := oid_str (u_id U); claim_username := u_username U;
                  claim_iat := now env / 1000; claim_exp := now env / 1000 + 3600 |} /\
         authenticateToken env' req db next =
           next {| claim_id := oid_str (u_id U); claim_username := u_username U;
                   claim_iat := now env / 1000; claim_exp := now env / 1000 + 3600 |} db) /\
      (now env / 1000 + 3600 <= now env' / 1000 ->
         authenticateToken env' req db next = (db, sendStatus 403) /\
         sendStatus 403 <> sendStatus 401).
Proof.
  intros Hdef Hshape Hrt Hsecret.
  destruct (Hdef {| payload_id := oid_str (u_id U); payload_username := u_username U |}
              (JWT_SECRET env) 3600 (now env / 1000) Hsecret) as [token Htoken].
  exists token. split; [exact Htoken|].
  intros env' req db next Hsame Hauth.
  destruct (Hshape _ _ _ _ _ Htoken) as [Hne Hblank].
  assert (Hbearer : bearer_token req = Some token).
  { unfold bearer_token. rewrite Hauth. simpl mbind. by apply split_bearer. }
  pose proof (Hrt _ _ _ _ _ (now env' / 1000) Htoken) as Hv. simpl in Hv.
  rewrite (authenticateToken_verified _ _ _ _ token) by done.
  rewrite Hsame, Hv.
  split; intros Hclock.
  - apply Z.ltb_lt in Hclock. by rewrite Hclock.
  - apply Z.ltb_ge in Hclock. by rewrite Hclock.
Qed.

(** *** Collections *)

Lemma has_id_true {A : Type} (key : A -> ObjectId) (o : ObjectId) (d : A) :
  has_id key o d = true <-> key d = o.
Proof. unfold has_id. apply bool_decide_eq_true. Qed.

Lemma find_has_id {A : Type} (key : A -> ObjectId) (o : ObjectId) (docs : list A) (d : A) :
  List.find (has_id key o) docs = Some d -> In d docs /\ key d = o.
Proof. intros [Hin Hid]%List.find_some. by apply has_id_true in Hid. Qed.

(** Saving a loaded document swaps it for the first stored document with
    its [_id], which is the one [findById] returned. *)
Lemma replace_doc_found {A : Type} (key : A -> ObjectId) (d d0 : A) (docs : list A) :
  List.find (has_id key (key d)) docs = Some d0 ->
  exists l1 l2, docs = (l1 ++ d0 :: l2)%list /\
                replace_doc key d docs = (l1 ++ d :: l2)%list /\
                Forall (fun x => key x <> key d) l1.
Proof.
  induction docs as [|x rest IH]; simpl; [done|].
  destruct (has_id key (key d) x) eqn:Hx.
  - intros [= ->]. by exists [], rest.
  - intros (l1 & l2 & -> & -> & Hl1)%IH.
    exists (x :: l1), l2. repeat split; try done.
    constructor; [|done]. intros Heq. apply has_id_true in Heq. congruence.
Qed.

Lemma replace_doc_Forall2 {A : Type} (key : A -> ObjectId) (R : A -> A -> Prop)
    (d d0 : A) (docs : list A) :
  (forall x, R x x) -> R d0 d ->
  List.find (has_id key (key d)) docs = Some d0 ->
  Forall2 R docs (replace_doc key d docs).
Proof.
  intros Hrefl Hd (l1 & l2 & -> & -> & _)%replace_doc_found.
  apply Forall2_app; [by apply Forall_Forall2_diag, Forall_forall|].
  constructor; [done|]. by apply Forall_Forall2_diag, Forall_forall.
Qed.

Lemma insert_doc_Some {A : Type} (key : A -> ObjectId) (d : A) (docs docs' : list A) :
  insert_doc key d docs = Some docs' ->
  docs' = (docs ++ [d])%list /\ Forall (fun x => key x <> key d) docs.
Proof.
  unfold insert_doc. destruct (forallb _ docs) eqn:Hfresh; [|done].
  intros [= <-]. split; [done|].
  apply Forall_forall. intros x Hx%list_elem_of_In Heq.
  rewrite forallb_forall in Hfresh. specialize (Hfresh x Hx).
  apply negb_true_iff in Hfresh. apply has_id_true in Heq. congruence.
Qed.

Lemma insert_doc_fresh {A : Type} (key : A -> ObjectId) (d : A) (docs : list A) :
  Forall (fun x => key x <> key d) docs ->
  insert_doc key d docs = Some (docs ++ [d])%list.
Proof.
  intros Hfresh. unfold insert_doc.
  assert (forallb (fun x => negb (has_id key (key d) x)) docs = true) as ->; [|done].
  apply forallb_forall. intros x Hx%list_elem_of_In.
  rewrite Forall_forall in Hfresh. apply negb_true_iff.
  destruct (has_id key (key d) x) eqn:E; [|done].
  apply has_id_true in E. by apply Hfresh in Hx.
Qed.

(** The middleware answers 401 or 403 and leaves the database alone, or
    runs the rest of the route on verified claims. *)
Lemma authenticateToken_cases env req db next :
  authenticateToken env req db next = (db, sendStatus 401) \/
  authenticateToken env req db next = (db, sendStatus 403) \/
  exists token user,
    bearer_token req = Some token /\ token <> "" /\
    jwt_verify token (JWT_SECRET env) (now env / 1000) = inr user /\
    authenticateToken env req db next = next user db.
Proof.
  unfold authenticateToken.
  destruct (bearer_token req) as [token|] eqn:Ht; simpl; [|by left].
  destruct (String.eqb token "") eqn:He; simpl; [by left|].
  apply String.eqb_neq in He.
  destruct (jwt_verify _ _ _) as [err|user] eqn:Hv; [by right; left|].
  right; right. by exists token, user.
Qed.

(** *** Orders *)

Lemma create_order_created env user req db db' res :
  create_order env user req db = (db', res) -> status res = 201 ->
  exists order,
    db' = set_orders db (orders db ++ [order])%list /\
    res = json 201 (OrderJson order) /\
    castObjectId (JStr (claim_id user)) = Some (o_userId order) /\
    castObjectId (field (body req) "productId") = Some (o_productId order) /\
    castNumber (field (body req) "quantity") = Some (o_quantity order) /\
    o_id order = new_id env /\ o_status order = "pending" /\ o_createdAt order = now env.
Proof.
  unfold create_order, try_catch, Order_insert.
  destruct (castObjectId (field (body req) "productId")) as [pid|]; simpl;
    [|by intros [= <- <-]].
  destruct (castObjectId (JStr (claim_id user))) as [uid|]; simpl;
    [|by intros [= <- <-]].
  destruct (castNumber (field (body req) "quantity")) as [qty|]; simpl;
    [|by intros [= <- <-]].
  destruct (insert_doc _ _ _) as [docs'|] eqn:Hins; simpl; [|by intros [= <- <-]].
  apply insert_doc_Some in Hins as [-> _].
  intros [= <- <-] _. eexists. repeat split; done.
Qed.

Lemma update_order_frame id req db :
  users (update_order id req db).1 = users db /\
  products (update_order id req db).1 = products db /\
  Forall2 (fun o o' => o_id o' = o_id o /\ o_userId o' = o_userId o /\
                       o_productId o' = o_productId o /\ o_createdAt o' = o_createdAt o)
          (orders db) (orders (update_order id req db).1).
Proof.
  assert (Hsame : Forall2 (fun o o' : Order => o_id o' = o_id o /\ o_userId o' = o_userId o /\
                       o_productId o' = o_productId o /\ o_createdAt o' = o_createdAt o)
          (orders db) (orders db)).
  { by apply Forall_Forall2_diag, Forall_forall. }
  unfold update_order, try_catch, findById.
  destruct (castObjectId (JStr id)) as [o|]; simpl; [|done].
  destruct (List.find (has_id o_id o) (orders db)) as [order|] eqn:Hfind; simpl; [|done].
  destruct (if truthy (field (body req) "quantity") then _ else _) as [qty|]; simpl; [|done].
  destruct (if truthy (field (body req) "status") then _ else _) as [st|]; simpl; [|done].
  unfold Order_save. destruct (Order_valid _); simpl; [|done].
  repeat split; try done.
  apply find_has_id in Hfind as Hid. destruct Hid as [_ <-].
  eapply replace_doc_Forall2; [done| |exact Hfind]. done.
Qed.

(** C2. An order created through POST /api/orders is appended with, as
    user reference, the ObjectId cast from the id claim of the verified
    token (the caller's own [_id] when the claim is its string form); a
    [userId] the client puts in the body changes nothing.  PUT
    /api/orders/:id keeps the [_id], user reference, product reference and
    creation time of every stored order: it writes at most quantity and
    status. *)
Theorem C2_order_user_reference :
  (forall (env : Env) (req : Request) (db db' : Db) (res : Response) token user,
     route req = POST_orders ->
     bearer_token req = Some token -> token <> "" ->
     jwt_verify token (JWT_SECRET env) (now env / 1000) = inr user ->
     app env req db = (db', res) -> status res = 201 ->
     exists order,
       orders db' = (orders db ++ [order])%list /\
       payload res = OrderJson order /\
       castObjectId (JStr (claim_id user)) = Some (o_userId order) /\
       (forall uid, cast_oid_str M -> claim_id user = oid_str uid -> o_userId order = uid)) /\
  (forall (env : Env) (user : JwtClaims) (req : Request) (db : Db) (v : JsValue),
     create_order env user
       {| route := route req; authorization := authorization req;
          body := <["userId" := v]> (body req); query := query req; file := file req |} db
     = create_order env user req db) /\
  (forall (env : Env) (req : Request) (db : Db) id,
     route req = PUT_orders_id id ->
     Forall2 (fun o o' => o_id o' = o_id o /\ o_userId o' = o_userId o /\
                          o_productId o' = o_productId o /\ o_createdAt o' = o_createdAt o)
             (orders db) (orders (app env req db).1)).
Proof.
  split; [|split].
  - intros env req db db' res token user Hroute Htoken Hne Hverify Happ Hstatus.
    unfold app in Happ. rewrite Hroute in Happ.
    rewrite (authenticateToken_verified _ _ _ _ token), Hverify in Happ by done.
    destruct (create_order_created _ _ _ _ _ _ Happ Hstatus)
      as (order & -> & -> & Huser & _).
    exists order. repeat split; try done.
    intros uid Hcast Hid. rewrite Hid, Hcast in Huser. congruence.
  - intros env user req db v. unfold create_order, field. simpl.
    by rewrite !lookup_insert_ne.
  - intros env req db id Hroute. unfold app. rewrite Hroute.
    destruct (authenticateToken_cases env req db (fun _ db => update_order id req db))
      as [-> | [-> | (token & user & _ & _ & _ & ->)]].
    + by apply Forall_Forall2_diag, Forall_forall.
    + by apply Forall_Forall2_diag, Forall_forall.
    + apply update_order_frame.
Qed.

(** *** Users *)

Lemma find_none_Forall {A : Type} (f : A -> bool) (l : list A) :
  Forall (fun x => f x = false) l -> List.find f l = None.
Proof.
  induction 1 as [|x l Hx _ IH]; simpl; [done|]. by rewrite Hx.
Qed.

Lemma find_is_Some {A : Type} (f : A -> bool) (l : list A) (x : A) :
  x ∈ l -> f x = true -> is_Some (List.find f l).
Proof.
  induction 1 as [x l|x y l _ IH]; simpl; intros Hx.
  - rewrite Hx. eauto.
  - destruct (f y); eauto.
Qed.

Lemma filter_none_Forall {A : Type} (f : A -> bool) (l : list A) :
  Forall (fun x => f x = false) l -> List.filter f l = [].
Proof.
  induction 1 as [|x l Hx _ IH]; simpl; [done|]. by rewrite Hx.
Qed.

(** C4. A registration carrying a non-empty username and email that no
    stored user has, and a password, is answered 201 and appends exactly one
    record.  Registering then again with the same email or the same
    username is answered 400 and leaves the store as it is, so that exactly
    one record holds that email. *)
Theorem C4_registration_uniqueness (env : Env) (req : Request) (db : Db)
    (username email password : string) :
  query_string_str M -> cast_string_str M -> bcrypt_hash_nonempty B ->
  field (body req) "username" = JStr username ->
  field (body req) "email" = JStr email ->
  field (body req) "password" = JStr password ->
  username <> "" -> email <> "" ->
  Forall (fun x => u_username x <> username /\ u_email x <> email /\ u_id x <> new_id env)
         (users db) ->
  exists newUser,
    let db1 := set_users db (users db ++ [newUser])%list in
    register env req db = (db1, json 201 (Message "User registered successfully")) /\
    u_username newUser = username /\ u_email newUser = email /\
    List.length (users db1) = S (List.length (users db)) /\
    (forall (env' : Env) (req' : Request) (username' email' : string),
       field (body req') "username" = JStr username' ->
       field (body req') "email" = JStr email' ->
       username' = username \/ email' = email ->
       register env' req' db1 =
         (db1, json 400 (Message "Username or email already exists"))) /\
    List.length (List.filter (fun x => String.eqb (u_email x) email) (users db1)) = 1%nat.
Proof.
  intros Hquery Hcast Hhash Hu He Hp Hune Hene Hfree.
  set (newUser := {| u_id := new_id env; u_username := username; u_email := email;
                     u_password := bcrypt_hash password 10 (salt env);
                     u_profileImage := file req |}).
  exists newUser. simpl. repeat split.
  - unfold register. rewrite Hu, He, Hp.
    destruct (Hquery username) as (fu & -> & Hfu).
    destruct (Hquery email) as (fe & -> & Hfe). simpl.
    rewrite find_none_Forall; cycle 1.
    { eapply Forall_impl; [exact Hfree|]. intros x (Hxu & Hxe & _). simpl.
      rewrite Hfu, Hfe. apply orb_false_iff.
      split; apply String.eqb_neq; congruence. }
    rewrite !Hcast. simpl. fold newUser.
    unfold User_insert, User_valid, User_unique. simpl.
    assert (nonempty username = true) as -> by by apply nonempty_true.
    assert (nonempty email = true) as -> by by apply nonempty_true.
    assert (nonempty (bcrypt_hash password 10 (salt env)) = true) as ->
      by apply nonempty_true, Hhash.
    simpl.
    assert (forallb (fun x => has_id u_id (new_id env) x ||
              negb (String.eqb (u_username x) username) &&
              negb (String.eqb (u_email x) email)) (users db) = true) as ->.
    { apply forallb_forall. intros x Hx%list_elem_of_In.
      rewrite Forall_forall in Hfree. destruct (Hfree x Hx) as (Hxu & Hxe & _).
      apply orb_true_iff. right. apply andb_true_iff.
      split; apply negb_true_iff, String.eqb_neq; done. }
    rewrite (insert_doc_fresh u_id newUser); [done|].
    eapply Forall_impl; [exact Hfree|]. by intros x (_ & _ & Hid).
  - rewrite List.length_app. simpl. lia.
  - intros env' req' username' email' Hu' He' Hsame.
    unfold register. rewrite Hu', He'.
    destruct (Hquery username') as (fu & -> & Hfu).
    destruct (Hquery email') as (fe & -> & Hfe). simpl.
    destruct (find_is_Some (fun u => fu (u_username u) || fe (u_email u))
                (users db ++ [newUser])%list newUser) as [existing ->]; [| |done].
    + apply elem_of_app. right. by apply list_elem_of_singleton.
    + simpl. rewrite Hfu, Hfe. apply orb_true_iff.
      destruct Hsame as [-> | ->]; [left|right]; apply String.eqb_refl.
  - rewrite List.filter_app, filter_none_Forall; simpl.
    + by rewrite String.eqb_refl.
    + eapply Forall_impl; [exact Hfree|]. intros x (_ & Hxe & _).
      by apply String.eqb_neq.
Qed.

Lemma populate_product db o p :
  populate db o = (o, p) ->
  match p with
  | Some product => product ∈ products db /\ p_id product = o_productId o
  | None => forall product, product ∈ products db -> p_id product <> o_productId o
  end.
Proof.
  unfold populate. intros [= <-].
  destruct (List.find _ (products db)) as [product|] eqn:Hfind.
  - apply find_has_id in Hfind as [Hin Hid]. by rewrite list_elem_of_In.
  - intros product Hin%list_elem_of_In Hid.
    pose proof (List.find_none _ _ Hfind product Hin) as Hno.
    apply has_id_true in Hid. congruence.
Qed.

(** C5. For a caller whose verified token casts to the ObjectId
    [uid], GET /api/orders answers 200 with exactly the stored orders whose
    user reference is [uid], in store order; an order of another user is
    not listed.  Each listed order comes with the product its reference
    resolves to: the stored product with that [_id] when there is one, and
    null when there is none. *)
Theorem C5_order_listing (env : Env) (req : Request) (db : Db) token user uid :
  route req = GET_orders ->
  bearer_token req = Some token -> token <> "" ->
  jwt_verify token (JWT_SECRET env) (now env / 1000) = inr user ->
  castObjectId (JStr (claim_id user)) = Some uid ->
  exists listed,
    app env req db = (db, json 200 (PopulatedListJson listed)) /\
    List.map fst listed = List.filter (fun o => bool_decide (o_userId o = uid)) (orders db) /\
    (forall o, o ∈ List.map fst listed <-> o ∈ orders db /\ o_userId o = uid) /\
    (forall o p, (o, p) ∈ listed ->
       match p with
       | Some product => product ∈ products db /\ p_id product = o_productId o
       | None => forall product, product ∈ products db -> p_id product <> o_productId o
       end).
Proof.
  intros Hroute Htoken Hne Hverify Hcast.
  set (found := List.filter (fun o => bool_decide (o_userId o = uid)) (orders db)).
  assert (Hfst : List.map fst (List.map (populate db) found) = found).
  { rewrite List.map_map. simpl. apply List.map_id. }
  exists (List.map (populate db) found). repeat split.
  - unfold app. rewrite Hroute.
    rewrite (authenticateToken_verified _ _ _ _ token), Hverify by done.
    unfold list_orders. by rewrite Hcast.
  - exact Hfst.
  - rewrite Hfst in H. apply list_elem_of_In, List.filter_In in H as [H _].
    by apply list_elem_of_In.
  - rewrite Hfst in H. apply list_elem_of_In, List.filter_In in H as [_ H].
    by apply bool_decide_eq_true in H.
  - rewrite Hfst. intros [Hin Hown]. apply list_elem_of_In, List.filter_In.
    split; [by apply list_elem_of_In|by apply bool_decide_eq_true].
  - intros o p Hin. apply list_elem_of_In, List.in_map_iff in Hin as (o' & Hpop & _).
    apply populate_product. rewrite <- Hpop. unfold populate in *. congruence.
Qed.

(** A branch that answered with another status than the one asked about. *)
Ltac other_status := intros [= <- <-]; simpl; intros; discriminate.

Lemma register_created env req db db' res :
  register env req db = (db', res) -> status res = 201 ->
  exists data newUser,
    field (body req) "password" = JStr data /\
    db' = set_users db (users db ++ [newUser])%list /\
    u_password newUser = bcrypt_hash data 10 (salt env).
Proof.
  unfold register, try_catch.
  destruct (query_string (field (body req) "username")) as [fu|]; simpl; [|other_status].
  destruct (query_string (field (body req) "email")) as [fe|]; simpl; [|other_status].
  destruct (List.find _ (users db)); simpl; [other_status|].
  destruct (field (body req) "password") as [| |b|n|data]; simpl; try other_status.
  destruct (castString (field (body req) "username")) as [u|]; simpl; [|other_status].
  destruct (castString (field (body req) "email")) as [e|]; simpl; [|other_status].
  unfold User_insert. destruct (User_valid _ && User_unique _ _); simpl; [|other_status].
  destruct (insert_doc _ _ _) as [docs'|] eqn:Hins; simpl; [|other_status].
  apply insert_doc_Some in Hins as [-> _].
  intros [= <- <-] _. by eexists data, _.
Qed.

Lemma update_user_updated env _id req db db' res :
  update_user env _id req db = (db', res) -> status res = 200 ->
  exists old new,
    findById u_id _id (users db) = Some (Some old) /\
    db' = set_users db (replace_doc u_id new (users db)) /\
    res = json 200 (UserJson new) /\
    u_id new = u_id old /\
    (if truthy (field (body req) "password")
     then exists data, field (body req) "password" = JStr data /\
                       u_password new = bcrypt_hash data 10 (salt env)
     else u_password new = u_password old).
Proof.
  unfold update_user, try_catch.
  destruct (findById u_id _id (users db)) as [[old|]|]; simpl; try other_status.
  destruct (castString (or_else (field (body req) "username") _)) as [u|]; simpl;
    [|other_status].
  destruct (castString (or_else (field (body req) "email") _)) as [e|]; simpl; [|other_status].
  assert (Hsave : forall password' : string,
    let new := {| u_id := u_id old; u_username := u; u_email := e;
                  u_password := password';
                  u_profileImage := if truthy_str (file req) then file req
                                    else u_profileImage old |} in
    default (db, json 500 (Message "Failed to update user"))
      (db'0 ← User_save new db; Some (db'0, json 200 (UserJson new))) = (db', res) ->
    status res = 200 ->
    db' = set_users db (replace_doc u_id new (users db)) /\
    res = json 200 (UserJson new)).
  { intros password' new. unfold User_save.
    destruct (User_valid _ && User_unique _ _); simpl; [|other_status].
    by intros [= <- <-] _. }
  destruct (field (body req) "password") as [| |b|n|data] eqn:Hp; simpl.
  - intros Hrun Hst. destruct (Hsave _ Hrun Hst) as [-> ->]. by eexists old, _.
  - intros Hrun Hst. destruct (Hsave _ Hrun Hst) as [-> ->]. by eexists old, _.
  - destruct b; simpl; [other_status|].
    intros Hrun Hst. destruct (Hsave _ Hrun Hst) as [-> ->]. by eexists old, _.
  - destruct (negb (Z.eqb n 0)); simpl; [other_status|].
    intros Hrun Hst. destruct (Hsave _ Hrun Hst) as [-> ->]. by eexists old, _.
  - destruct (negb (String.eqb data "")); simpl;
      intros Hrun Hst; destruct (Hsave _ Hrun Hst) as [-> ->];
      eexists old, _; repeat split; try done.
    by exists data.
Qed.

Lemma delete_doc_Forall {A : Type} (key : A -> ObjectId) (o : ObjectId) (P : A -> Prop)
    (docs : list A) :
  Forall P docs -> Forall P (delete_doc key o docs).
Proof.
  induction 1 as [|x rest Hx Hrest IH]; simpl; [done|].
  destruct (has_id key o x); [done|]. by constructor.
Qed.

Lemma replace_doc_Forall {A : Type} (key : A -> ObjectId) (d : A) (P : A -> Prop)
    (docs : list A) :
  P d -> Forall P docs -> Forall P (replace_doc key d docs).
Proof.
  intros Hd. induction 1 as [|x rest Hx Hrest IH]; simpl; [done|].
  destruct (has_id key (key d) x); by constructor.
Qed.

(** Splits a handler into its branches: the body of the [try] either
    throws or returns, and each bind, match and test in it is decided. *)
Ltac run_handler :=
  unfold try_catch;
  destruct (_ ≫= _) as [[? ?]|] eqn:?; simpl; [|try done];
  repeat (case_match || simplify_option_eq); simpl; try done.

Lemma register_hashed env req db :
  passwords_hashed db -> passwords_hashed (register env req db).1.
Proof.
  intros Hdb. unfold register, hashPassword, User_insert, insert_doc. run_handler.
  apply Forall_app. split; [done|]. constructor; [|done]. simpl. eauto.
Qed.

Lemma update_user_hashed env _id req db :
  passwords_hashed db -> passwords_hashed (update_user env _id req db).1.
Proof.
  intros Hdb. unfold update_user, findById, hashPassword, User_save. run_handler.
  all: apply replace_doc_Forall; [simpl|done].
  all: try by eauto.
  all: match goal with
       | H : List.find _ _ = Some ?u |- _ =>
           apply List.find_some in H as [Hin%list_elem_of_In _];
           unfold passwords_hashed in Hdb; rewrite Forall_forall in Hdb;
           by apply Hdb
       end.
Qed.

Lemma delete_user_hashed id db :
  passwords_hashed db -> passwords_hashed (delete_user id db).1.
Proof.
  intros Hdb. unfold delete_user. run_handler. by apply delete_doc_Forall.
Qed.

Lemma app_users_hashed env req db :
  passwords_hashed db -> passwords_hashed (app env req db).1.
Proof.
  intros Hdb. unfold app. destruct (route req).
  - by apply register_hashed.
  - done.
  - unfold get_user, findById. by run_handler.
  - by apply update_user_hashed.
  - by apply delete_user_hashed.
  - unfold login, compare. by run_handler.
  - unfold create_product, Product_insert, insert_doc. by run_handler.
  - unfold list_products. by run_handler.
  - unfold get_product, findById. by run_handler.
  - unfold update_product, findById, Product_save. by run_handler.
  - unfold delete_product. by run_handler.
  - destruct (authenticateToken_cases env req db
                (fun user db => create_order env user req db))
      as [-> | [-> | (token & user & _ & _ & _ & ->)]]; try done.
    unfold create_order, Order_insert, insert_doc. by run_handler.
  - destruct (authenticateToken_cases env req db (fun user db => list_orders user db))
      as [-> | [-> | (token & user & _ & _ & _ & ->)]]; try done.
    unfold list_orders. by run_handler.
  - destruct (authenticateToken_cases env req db (fun _ db => get_order id db))
      as [-> | [-> | (token & user & _ & _ & _ & ->)]]; try done.
    unfold get_order, findById. by run_handler.
  - destruct (authenticateToken_cases env req db (fun _ db => update_order id req db))
      as [-> | [-> | (token & user & _ & _ & _ & ->)]]; try done.
    unfold update_order, findById, Order_save. by run_handler.
  - destruct (authenticateToken_cases env req db (fun _ db => delete_order id db))
      as [-> | [-> | (token & user & _ & _ & _ & ->)]]; try done.
    unfold delete_order. by run_handler.
Qed.

Lemma find_replace_doc {A : Type} (key : A -> ObjectId) (d d0 : A) (docs : list A) :
  List.find (has_id key (key d)) docs = Some d0 ->
  List.find (has_id key (key d)) (replace_doc key d docs) = Some d.
Proof.
  induction docs as [|x rest IH]; simpl; [done|].
  destruct (has_id key (key d) x) eqn:Hx; simpl.
  - intros _. by rewrite (proj2 (has_id_true key (key d) d)).
  - rewrite Hx. exact IH.
Qed.

(** C6. After a registration answered 201 the record added holds, as
    password, the bcrypt hash (10 rounds) of the password string of the
    request.  After a user update answered 200 the updated record holds the
    bcrypt hash of the password of the request when that is truthy (it is
    then a string), and the password it held before when the request has
    no password; no other record changes.  Hence no request to any route
    breaks the invariant that every stored password is a hasher output.  The
    value [hashPassword] returns is the hasher's output, so it is not the
    plaintext for a hasher that never returns its input.  And the update
    does succeed: on a stored user, with username and email that cast, a
    record that passes validation and the unique indexes, and a password
    that is absent or a string, it is answered 200, the record saved holds
    the hash of a supplied password string and the prior hash otherwise,
    and a read of the user right after returns that record. *)
Theorem C6_password_is_hashed :
  (forall (env : Env) (req : Request) (db db' : Db) (res : Response),
     register env req db = (db', res) -> status res = 201 ->
     exists data newUser,
       field (body req) "password" = JStr data /\
       users db' = (users db ++ [newUser])%list /\
       u_password newUser = bcrypt_hash data 10 (salt env) /\
       (bcrypt_hash_not_plaintext B -> u_password newUser <> data)) /\
  (forall (env : Env) (_id : string) (req : Request) (db db' : Db) (res : Response),
     update_user env _id req db = (db', res) -> status res = 200 ->
     exists old new,
       findById u_id _id (users db) = Some (Some old) /\
       payload res = UserJson new /\
       Forall2 (fun x y => y = x \/ (x = old /\ y = new)) (users db) (users db') /\
       (if truthy (field (body req) "password")
        then exists data, field (body req) "password" = JStr data /\
                          u_password new = bcrypt_hash data 10 (salt env) /\
                          (bcrypt_hash_not_plaintext B -> u_password new <> data)
        else u_password new = u_password old)) /\
  (forall (env : Env) (req : Request) (db : Db),
     passwords_hashed db -> passwords_hashed (app env req db).1) /\
  (forall (env : Env) (data : string),
     hashPassword env (JStr data) = Some (bcrypt_hash data 10 (salt env)) /\
     (bcrypt_hash_not_plaintext B -> hashPassword env (JStr data) <> Some data)) /\
  (forall (env : Env) (_id : string) (req : Request) (db : Db) (old : User)
          (username' email' password' : string),
     findById u_id _id (users db) = Some (Some old) ->
     castString (or_else (field (body req) "username") (JStr (u_username old)))
       = Some username' ->
     castString (or_else (field (body req) "email") (JStr (u_email old)))
       = Some email' ->
     (if truthy (field (body req) "password")
      then exists data, field (body req) "password" = JStr data /\
                        password' = bcrypt_hash data 10 (salt env)
      else password' = u_password old) ->
     let new := {| u_id := u_id old; u_username := username'; u_email := email';
                   u_password := password';
                   u_profileImage := if truthy_str (file req) then file req
                                     else u_profileImage old |} in
     User_valid new = true -> User_unique new (users db) = true ->
     update_user env _id req db =
       (set_users db (replace_doc u_id new (users db)), json 200 (UserJson new)) /\
     get_user _id (update_user env _id req db).1 =
       ((update_user env _id req db).1, json 200 (UserJson new))).
Proof.
  split; [|split; [|split; [exact app_users_hashed|split]]].
  - intros env req db db' res Hrun Hstatus.
    destruct (register_created _ _ _ _ _ Hrun Hstatus) as (data & newUser & Hp & -> & Hhash).
    exists data, newUser. repeat split; try done.
    intros Hnot. rewrite Hhash. apply Hnot.
  - intros env _id req db db' res Hrun Hstatus.
    destruct (update_user_updated _ _ _ _ _ _ Hrun Hstatus)
      as (old & new & Hfind & -> & -> & Hid & Hpw).
    exists old, new. repeat split; try done.
    + simpl. unfold findById in Hfind.
      destruct (castObjectId (JStr _id)) as [o|]; simpl in Hfind; [|done].
      injection Hfind as Hfind. apply find_has_id in Hfind as Hold.
      destruct Hold as [_ <-]. rewrite <- Hid in Hfind.
      eapply replace_doc_Forall2; [by left|by right|exact Hfind].
    + destruct (truthy (field (body req) "password")); [|done].
      destruct Hpw as (data & Hp & Hhash). exists data. repeat split; try done.
      intros Hnot. rewrite Hhash. apply Hnot.
  - intros env data. split; [done|].
    intros Hnot [= Heq]. by apply Hnot in Heq.
  - intros env _id req db old username' email' password' Hfind Hu He Hp new
      Hvalid Hunique.
    assert (Hrun : update_user env _id req db =
              (set_users db (replace_doc u_id new (users db)),
               json 200 (UserJson new))).
    { unfold update_user, try_catch. rewrite Hfind. simpl. rewrite Hu, He. simpl.
      assert (Hhashed : (if truthy (field (body req) "password")
                         then hashPassword env (field (body req) "password")
                         else Some (u_password old)) = Some password').
      { destruct (truthy (field (body req) "password")); [|by rewrite Hp].
        destruct Hp as (data & -> & ->). reflexivity. }
      rewrite Hhashed. simpl. fold new. unfold User_save.
      by rewrite Hvalid, Hunique. }
    split; [exact Hrun|]. rewrite Hrun. simpl.
    unfold findById in Hfind.
    destruct (castObjectId (JStr _id)) as [o|] eqn:Hcast; simpl in Hfind; [|done].
    injection Hfind as Hfind. apply find_has_id in Hfind as Hold.
    destruct Hold as [_ Hold].
    unfold get_user, try_catch, findById. rewrite Hcast. simpl.
    assert (Hkey : o = u_id new) by (symmetry; exact Hold).
    rewrite Hkey in *. by rewrite (find_replace_doc u_id new old).
Qed.

(** *** Products *)


Lemma merged_string (supplied : JsValue) (prior stored : string) :
  cast_string_str M ->
  castString (or_else supplied (JStr prior)) = Some stored ->
  if truthy supplied then castString supplied = Some stored else stored = prior.
Proof.
  intros Hcast. unfold or_else. destruct (truthy supplied); [done|].
  rewrite Hcast. congruence.
Qed.



(** [contains_ci] is substring containment after folding case. *)
Lemma prefix_ci_iff (p s : string) :
  prefix_ci p s = true <-> exists post, lowercase s = lowercase p ++ post.
Proof.
  revert s. induction p as [|a p IH]; intros s; simpl.
  - split; [intros _; by exists (lowercase s)|done].
  - destruct s as [|b s]; simpl.
    + split; [done|]. by intros [post Hpost].
    + rewrite andb_true_iff, IH, Ascii.eqb_eq. split.
      * intros [-> [post ->]]. by exists post.
      * intros [post Hpost]. injection Hpost as -> Hpost. eauto.
Qed.

Lemma contains_ci_iff (q s : string) :
  contains_ci q s = true <->
  exists pre post, lowercase s = pre ++ lowercase q ++ post.
Proof.
  induction s as [|b s IH]; simpl.
  - rewrite orb_false_r, prefix_ci_iff. split.
    + intros [post Hpost]. by exists "", post.
    + intros (pre & post & Hs). destruct pre as [|c pre]; [|done]. by exists post.
  - rewrite orb_true_iff, IH, prefix_ci_iff. split.
    + intros [[post Hpost] | (pre & post & Hs)].
      * by exists "", post.
      * exists (String (lower b) pre), post. simpl in *. unfold append; fold append.
        by rewrite Hs.
    + intros (pre & post & Hs). destruct pre as [|c pre].
      * left. by exists post.
      * right. exists pre, post. unfold append in Hs; fold append in Hs.
        by injection Hs.
Qed.

Lemma filter_all {A : Type} (l : list A) : List.filter (fun _ => true) l = l.
Proof. induction l as [|x l IH]; simpl; [done|]. by rewrite IH. Qed.

(** C8. GET /api/products without a query parameter, or with an
    empty one, lists every product.  With a non-empty query [q] it lists
    exactly the products whose name the server matches against [q] taken as
    a case-insensitive regular expression (and answers 500 when the server
    rejects [q]).  When [q] consists of plain characters only (printable
    ASCII, no regex metacharacter) the products listed are, among those
    with an ASCII name, exactly the ones whose name contains [q] as a
    substring up to case. *)
Theorem C8_catalog_listing (env : Env) (req : Request) (db : Db) :
  route req = GET_products ->
  (truthy_str (query req) = false ->
     app env req db = (db, json 200 (ProductsJson (products db)))) /\
  (forall q, query req = Some q -> q <> "" ->
     app env req db =
       match regex_i q with
       | Some keep =>
           (db, json 200 (ProductsJson
                            (List.filter (fun p => keep (p_name p)) (products db))))
       | None => (db, json 500 (Message "Error fetching products"))
       end) /\
  (regex_plain_substring M ->
   forall q, query req = Some q -> all_chars regex_plain q = true ->
     exists keep,
       app env req db =
         (db, json 200 (ProductsJson
                          (List.filter (fun p => keep (p_name p)) (products db)))) /\
       forall p, all_chars is_ascii7 (p_name p) = true ->
         (p ∈ List.filter (fun p => keep (p_name p)) (products db) <->
          p ∈ products db /\ contains_ci q (p_name p) = true)).
Proof.
  intros Hroute. unfold app. rewrite Hroute. unfold list_products, try_catch.
  split; [|split].
  - intros ->. simpl. by rewrite filter_all.
  - intros q -> Hq. rewrite (truthy_str_Some _ Hq). simpl.
    by destruct (regex_i q).
  - intros Hplain q -> Hq.
    destruct (Hplain q Hq) as (keep & Hkeep & Hsub).
    destruct (String.eqb q "") eqn:Hempty; simpl; rewrite Hempty; simpl.
    + apply String.eqb_eq in Hempty as ->. exists (fun _ => true).
      rewrite filter_all. split; [done|].
      intros p _. split; [|by intros [? _]].
      intros Hin. split; [done|]. by destruct (p_name p).
    + rewrite Hkeep. simpl. exists keep. split; [done|].
      intros p Hascii. rewrite list_elem_of_In, List.filter_In, <- list_elem_of_In.
      by rewrite (Hsub _ Hascii).
Qed.

(** On any server that reads [.] as "any character", the query [.] lists
    every product whose name holds a character other than a line feed,
    whether or not the name contains a dot. *)
Lemma list_products_dot (req : Request) (db : Db) :
  regex_dot_any M -> query req = Some "." ->
  list_products req db =
    (db, json 200 (ProductsJson
                     (List.filter
                        (fun p => negb (all_chars (Ascii.eqb "010") (p_name p)))
                        (products db)))).
Proof.
  intros (keep & Hkeep & Hany) Hq. unfold list_products, try_catch.
  rewrite Hq. simpl. rewrite Hkeep. simpl. do 3 f_equal.
  apply List.filter_ext. intros p. apply Hany.
Qed.

(** *** Login and the user reads *)

(** A login with the password a stored hash was made from is answered 200
    with the token issued for that user. *)
Lemma login_accepts env req db by_email user data rounds salt0 :
  bcrypt_compare_hash B -> jwt_sign_defined J -> JWT_SECRET env <> "" ->
  query_string (field (body req) "email") = Some by_email ->
  List.find (fun u => by_email (u_email u)) (users db) = Some user ->
  field (body req) "password" = JStr data ->
  u_password user = bcrypt_hash data rounds salt0 ->
  exists token,
    generateToken env user = Some token /\
    login env req db = (db, json 200 (LoginJson "Login successful" token)).
Proof.
  intros Hcompare Hsign Hsecret Hquery Hfind Hdata Hhash.
  destruct (Hsign {| payload_id := oid_str (u_id user);
                     payload_username := u_username user |}
              (JWT_SECRET env) 3600 (now env / 1000) Hsecret) as [token Htoken].
  exists token. split; [exact Htoken|].
  unfold login, try_catch. rewrite Hquery. simpl. rewrite Hfind, Hdata. simpl.
  rewrite Hhash, Hcompare. simpl. unfold generateToken. by rewrite Htoken.
Qed.

(** C9. Two failing logins, one whose email condition selects no stored
    user and one whose email selects a user and whose password is a string
    for which [bcrypt.compare] against the stored hash resolves to false,
    get the same response, status 400 with the message "Invalid email or
    password", and neither changes the database. *)
Theorem C9_login_failures_indistinguishable
    (env1 env2 : Env) (req1 req2 : Request) (db1 db2 : Db)
    (by_email1 by_email2 : string -> bool) (user : User) :
  route req1 = POST_users_login -> route req2 = POST_users_login ->
  query_string (field (body req1) "email") = Some by_email1 ->
  List.find (fun u => by_email1 (u_email u)) (users db1) = None ->
  query_string (field (body req2) "email") = Some by_email2 ->
  List.find (fun u => by_email2 (u_email u)) (users db2) = Some user ->
  compare (field (body req2) "password") (u_password user) = Some false ->
  (app env1 req1 db1).2 = (app env2 req2 db2).2 /\
  (app env1 req1 db1).2 = json 400 (Message "Invalid email or password") /\
  (app env1 req1 db1).1 = db1 /\ (app env2 req2 db2).1 = db2.
Proof.
  intros Hr1 Hr2 Hq1 Hnone Hq2 Hsome Hcmp.
  unfold app. rewrite Hr1, Hr2. unfold login, try_catch.
  rewrite Hq1, Hq2. simpl. by rewrite Hnone, Hsome, Hcmp.
Qed.

Lemma find_NoDup {A : Type} (key : A -> ObjectId) (d : A) (docs : list A) :
  d ∈ docs -> NoDup (List.map key docs) ->
  List.find (has_id key (key d)) docs = Some d.
Proof.
  induction docs as [|x rest IH]; simpl; [by intros ?%elem_of_nil|].
  intros Hin Hnodup. apply NoDup_cons in Hnodup as [Hx Hrest].
  apply elem_of_cons in Hin as [<- | Hin].
  - by rewrite (proj2 (has_id_true key (key d) d)).
  - destruct (has_id key (key d) x) eqn:Hid; [|by apply IH].
    apply has_id_true in Hid. exfalso. apply Hx. rewrite Hid.
    apply list_elem_of_In, List.in_map, list_elem_of_In, Hin.
Qed.

(** C10. GET /api/users answers 200 with the stored user records as they
    are, and GET /api/users/:id, for the id of a stored user (ids being
    unique), answers 200 with that record as it is; either body carries the
    password field of every record returned.  A record that GET
    /api/users/:id returns is always a stored one. *)
Theorem C10_user_reads_expose_password_hash (env : Env) (req : Request) (db : Db) :
  (route req = GET_users ->
     app env req db = (db, json 200 (UsersJson (users db)))) /\
  (forall u, cast_oid_str M -> NoDup (List.map u_id (users db)) -> u ∈ users db ->
     route req = GET_users_id (oid_str (u_id u)) ->
     app env req db = (db, json 200 (UserJson u)) /\
     forall v, payload (app env req db).2 = UserJson v -> u_password v = u_password u) /\
  (forall _id v, route req = GET_users_id _id ->
     payload (app env req db).2 = UserJson v -> v ∈ users db).
Proof.
  unfold app. split; [|split].
  - by intros ->.
  - intros u Hcast Hnodup Hin ->. unfold get_user, findById.
    rewrite Hcast. simpl. rewrite (find_NoDup u_id u) by done. simpl.
    split; [done|]. by intros v [= <-].
  - intros _id v ->. unfold get_user, findById, try_catch.
    destruct (castObjectId (JStr _id)) as [o|]; simpl; [|done].
    destruct (List.find _ (users db)) as [u|] eqn:Hfind; simpl; [|done].
    intros [= <-]. apply find_has_id in Hfind as [Hin _]. by apply list_elem_of_In.
Qed.

End Proofs.

(** ** Further properties of the routes *)

Section Routes.

Context {J : Jsonwebtoken} {B : Bcrypt} {M : Mongoose}.

(** Splits a handler into its branches. *)
Ltac branches :=
  unfold try_catch;
  try (destruct (_ ≫= _) as [[? ?]|] eqn:?; simpl; [|try done]);
  repeat (case_match || simplify_option_eq); simpl; try done.

(** Runs the middleware of an order route: it answers 401 or 403, or the
    handler runs. *)
Ltac through_auth env req db next :=
  destruct (authenticateToken_cases env req db next)
    as [-> | [-> | (?token & ?user & _ & _ & _ & ->)]]; simpl; try done.

(** A request answered with an error status leaves the database as it was:
    every handler writes only on the path that ends in 200 or 201. *)
Theorem error_keeps_database (env : Env) (req : Request) (db : Db) :
  400 <= status (app env req db).2 -> (app env req db).1 = db.
Proof.
  unfold app. destruct (route req).
  - unfold register, hashPassword, User_insert, insert_doc. branches; try lia.
  - done.
  - unfold get_user, findById. branches.
  - unfold update_user, findById, hashPassword, User_save. branches; try lia.
  - unfold delete_user. branches; try lia.
  - unfold login, compare. branches.
  - unfold create_product, Product_insert, insert_doc. branches; try lia.
  - unfold list_products. branches.
  - unfold get_product, findById. branches.
  - unfold update_product, findById, Product_save. branches; try lia.
  - unfold delete_product. branches; try lia.
  - through_auth env req db (fun user db => create_order env user req db).
    unfold create_order, Order_insert, insert_doc. branches; try lia.
  - through_auth env req db (fun user db => list_orders user db).
    unfold list_orders. branches.
  - through_auth env req db (fun (_ : JwtClaims) db => get_order id db).
    unfold get_order, findById. branches.
  - through_auth env req db (fun (_ : JwtClaims) db => update_order id req db).
    unfold update_order, findById, Order_save. branches; try lia.
  - through_auth env req db (fun (_ : JwtClaims) db => delete_order id db).
    unfold delete_order. branches; try lia.
Qed.

(** What each handler leaves alone. *)
Lemma register_frame env req db :
  products (register env req db).1 = products db /\
  orders (register env req db).1 = orders db.
Proof. unfold register, hashPassword, User_insert, insert_doc. by branches. Qed.

Lemma update_user_frame env _id req db :
  products (update_user env _id req db).1 = products db /\
  orders (update_user env _id req db).1 = orders db.
Proof. unfold update_user, findById, hashPassword, User_save. by branches. Qed.

Lemma delete_user_frame id db :
  products (delete_user id db).1 = products db /\
  orders (delete_user id db).1 = orders db.
Proof. unfold delete_user. by branches. Qed.

Lemma get_user_frame _id db : (get_user _id db).1 = db.
Proof. unfold get_user, findById. by branches. Qed.

Lemma login_frame env req db : (login env req db).1 = db.
Proof. unfold login, compare. by branches. Qed.

Lemma create_product_frame env req db :
  users (create_product env req db).1 = users db /\
  orders (create_product env req db).1 = orders db.
Proof. unfold create_product, Product_insert, insert_doc. by branches. Qed.

Lemma update_product_frame _id req db :
  users (update_product _id req db).1 = users db /\
  orders (update_product _id req db).1 = orders db.
Proof. unfold update_product, findById, Product_save. by branches. Qed.

Lemma delete_product_frame id db :
  users (delete_product id db).1 = users db /\
  orders (delete_product id db).1 = orders db.
Proof. unfold delete_product. by branches. Qed.

Lemma list_products_frame req db : (list_products req db).1 = db.
Proof. unfold list_products. by branches. Qed.

Lemma get_product_frame _id db : (get_product _id db).1 = db.
Proof. unfold get_product, findById. by branches. Qed.

Lemma create_order_frame env user req db :
  users (create_order env user req db).1 = users db /\
  products (create_order env user req db).1 = products db.
Proof. unfold create_order, Order_insert, insert_doc. by branches. Qed.

Lemma delete_order_frame id db :
  users (delete_order id db).1 = users db /\
  products (delete_order id db).1 = products db.
Proof. unfold delete_order. by branches. Qed.

Lemma list_orders_frame user db : (list_orders user db).1 = db.
Proof. unfold list_orders. by branches. Qed.

Lemma get_order_frame id db : (get_order id db).1 = db.
Proof. unfold get_order, findById. by branches. Qed.

(** Only the three writing routes of a collection change it: reads, logins
    and the routes of the other collections leave it as it was.  In
    particular deleting a user or a product never touches the orders that
    refer to it. *)
Theorem routes_write_their_collection (env : Env) (req : Request) (db : Db) :
  (writes_users (route req) = false -> users (app env req db).1 = users db) /\
  (writes_products (route req) = false -> products (app env req db).1 = products db) /\
  (writes_orders (route req) = false -> orders (app env req db).1 = orders db).
Proof.
  unfold app. destruct (route req); simpl.
  - repeat split; try discriminate; intros _; apply register_frame.
  - done.
  - by rewrite get_user_frame.
  - repeat split; try discriminate; intros _; apply update_user_frame.
  - repeat split; try discriminate; intros _; apply delete_user_frame.
  - by rewrite login_frame.
  - repeat split; try discriminate; intros _; apply create_product_frame.
  - by rewrite list_products_frame.
  - by rewrite get_product_frame.
  - repeat split; try discriminate; intros _; apply update_product_frame.
  - repeat split; try discriminate; intros _; apply delete_product_frame.
  - through_auth env req db (fun user db => create_order env user req db).
    repeat split; try discriminate; intros _; apply create_order_frame.
  - through_auth env req db (fun user db => list_orders user db).
    by rewrite list_orders_frame.
  - through_auth env req db (fun (_ : JwtClaims) db => get_order id db).
    by rewrite get_order_frame.
  - through_auth env req db (fun (_ : JwtClaims) db => update_order id req db).
    repeat split; try discriminate; intros _; apply update_order_frame.
  - through_auth env req db (fun (_ : JwtClaims) db => delete_order id db).
    repeat split; try discriminate; intros _; apply delete_order_frame.
Qed.

(** *** Looking a document up by its id *)

Lemma find_none_id {A : Type} (key : A -> ObjectId) (o : ObjectId) (docs : list A) :
  Forall (fun d => key d <> o) docs -> List.find (has_id key o) docs = None.
Proof.
  intros Hnone. apply find_none_Forall.
  eapply Forall_impl; [exact Hnone|]. intros d Hd. simpl.
  destruct (has_id key o d) eqn:Hid; [|done]. by apply has_id_true in Hid.
Qed.

(** An id that casts to an ObjectId no stored document has is answered 404
    by the nine routes that take an id, each with the message of its
    collection, and nothing is written. *)
Theorem unknown_id_not_found (env : Env) (id : string) (o : ObjectId)
    (req : Request) (db : Db) :
  castObjectId (JStr id) = Some o ->
  (Forall (fun u => u_id u <> o) (users db) ->
     get_user id db = (db, json 404 (Message "User not found")) /\
     update_user env id req db = (db, json 404 (Message "User not found")) /\
     delete_user id db = (db, json 404 (Message "User not found"))) /\
  (Forall (fun p => p_id p <> o) (products db) ->
     get_product id db = (db, json 404 (Message "Product not found")) /\
     update_product id req db = (db, json 404 (Message "Product not found")) /\
     delete_product id db = (db, json 404 (Message "Product not found"))) /\
  (Forall (fun x => o_id x <> o) (orders db) ->
     get_order id db = (db, json 404 (Message "Order not found")) /\
     update_order id req db = (db, json 404 (Message "Order not found")) /\
     delete_order id db = (db, json 404 (Message "Order not found"))).
Proof.
  intros Hcast.
  split; [|split]; intros Hnone%(find_none_id _ o); repeat split.
  - unfold get_user, findById. by rewrite Hcast; simpl; rewrite Hnone.
  - unfold update_user, findById. by rewrite Hcast; simpl; rewrite Hnone.
  - unfold delete_user. by rewrite Hcast; simpl; rewrite Hnone.
  - unfold get_product, findById. by rewrite Hcast; simpl; rewrite Hnone.
  - unfold update_product, findById. by rewrite Hcast; simpl; rewrite Hnone.
  - unfold delete_product. by rewrite Hcast; simpl; rewrite Hnone.
  - unfold get_order, findById. by rewrite Hcast; simpl; rewrite Hnone.
  - unfold update_order, findById. by rewrite Hcast; simpl; rewrite Hnone.
  - unfold delete_order. by rewrite Hcast; simpl; rewrite Hnone.
Qed.

(** An id that does not cast to an ObjectId makes the lookup throw; each
    route answers with the status of its own [catch]: 400 for the product
    and order updates, 500 for the seven other routes.  Nothing is written. *)
Theorem malformed_id_is_caught (env : Env) (id : string) (req : Request) (db : Db) :
  castObjectId (JStr id) = None ->
  get_user id db = (db, json 500 ErrorMessage) /\
  update_user env id req db = (db, json 500 (Message "Failed to update user")) /\
  delete_user id db = (db, json 500 (Message "Failed to delete user")) /\
  get_product id db = (db, json 500 ErrorMessage) /\
  update_product id req db = (db, json 400 ErrorMessage) /\
  delete_product id db = (db, json 500 (Message "Failed to delete product")) /\
  get_order id db = (db, json 500 ErrorMessage) /\
  update_order id req db = (db, json 400 ErrorMessage) /\
  delete_order id db = (db, json 500 (Message "Failed to delete order")).
Proof.
  intros Hcast.
  unfold get_user, update_user, delete_user, get_product, update_product,
    delete_product, get_order, update_order, delete_order, findById.
  by rewrite Hcast.
Qed.

(** With unique ids, deleting the first document with a given id leaves
    exactly the other documents. *)
Lemma delete_doc_unique {A : Type} (key : A -> ObjectId) (d : A) (docs : list A) :
  NoDup (List.map key docs) -> d ∈ docs ->
  (forall x, x ∈ delete_doc key (key d) docs <-> x ∈ docs /\ x <> d) /\
  Forall (fun x => key x <> key d) (delete_doc key (key d) docs) /\
  S (List.length (delete_doc key (key d) docs)) = List.length docs.
Proof.
  induction docs as [|y rest IH]; simpl; [by intros _ ?%elem_of_nil|].
  intros [Hy Hrest]%NoDup_cons Hin.
  assert (Hfresh : forall x, x ∈ rest -> key x <> key y).
  { intros x Hx Heq. apply Hy. rewrite <- Heq.
    apply list_elem_of_In, List.in_map, list_elem_of_In, Hx. }
  destruct (has_id key (key d) y) eqn:Hid.
  - apply has_id_true in Hid.
    assert (y = d) as ->.
    { apply elem_of_cons in Hin as [->|Hin]; [done|].
      by apply Hfresh in Hin. }
    split; [|split; [|done]].
    + intros x. split.
      * intros Hx. split; [by apply elem_of_cons; right|].
        intros ->. by apply Hfresh in Hx.
      * intros [[->|Hx]%elem_of_cons Hne]; done.
    + apply Forall_forall. intros x Hx. by apply Hfresh.
  - assert (Hne : key y <> key d).
    { intros Heq. apply has_id_true in Heq. congruence. }
    apply elem_of_cons in Hin as [->|Hin]; [done|].
    destruct (IH Hrest Hin) as (Hmem & Hgone & Hlen).
    split; [|split].
    + intros x. split.
      * intros [->|Hx]%elem_of_cons.
        -- split; [by apply elem_of_cons; left|]. by intros ->.
        -- apply Hmem in Hx as [Hx Hxd]. split; [by apply elem_of_cons; right|done].
      * intros [[->|Hx]%elem_of_cons Hxd]; apply elem_of_cons; [by left|].
        right. by apply Hmem.
    + by constructor.
    + simpl. by rewrite Hlen.
Qed.

(** Deleting a stored document by its id (ids being unique) is answered
    200, removes that document and no other, and a following read by the
    same id is answered 404. *)
Theorem delete_then_read_is_404 (id : string) (o : ObjectId) (db : Db) :
  castObjectId (JStr id) = Some o ->
  (forall u, NoDup (List.map u_id (users db)) -> u ∈ users db -> u_id u = o ->
     exists db',
       delete_user id db = (db', json 200 (Message "User deleted successfully")) /\
       (forall x, x ∈ users db' <-> x ∈ users db /\ x <> u) /\
       S (List.length (users db')) = List.length (users db) /\
       get_user id db' = (db', json 404 (Message "User not found"))) /\
  (forall p, NoDup (List.map p_id (products db)) -> p ∈ products db -> p_id p = o ->
     exists db',
       delete_product id db = (db', json 200 (Message "Product deleted successfully")) /\
       (forall x, x ∈ products db' <-> x ∈ products db /\ x <> p) /\
       S (List.length (products db')) = List.length (products db) /\
       get_product id db' = (db', json 404 (Message "Product not found"))) /\
  (forall r, NoDup (List.map o_id (orders db)) -> r ∈ orders db -> o_id r = o ->
     exists db',
       delete_order id db = (db', json 200 (Message "Order deleted successfully")) /\
       (forall x, x ∈ orders db' <-> x ∈ orders db /\ x <> r) /\
       S (List.length (orders db')) = List.length (orders db) /\
       get_order id db' = (db', json 404 (Message "Order not found"))).
Proof.
  intros Hcast. split; [|split].
  - intros u Hnodup Hin <-.
    destruct (delete_doc_unique u_id u _ Hnodup Hin) as (Hmem & Hgone & Hlen).
    exists (set_users db (delete_doc u_id (u_id u) (users db))).
    split; [|split; [exact Hmem|split; [exact Hlen|]]].
    + unfold delete_user. rewrite Hcast. simpl.
      by rewrite (find_NoDup u_id u) by done.
    + unfold get_user, findById. rewrite Hcast. simpl.
      by rewrite (find_none_id _ _ _ Hgone).
  - intros p Hnodup Hin <-.
    destruct (delete_doc_unique p_id p _ Hnodup Hin) as (Hmem & Hgone & Hlen).
    exists (set_products db (delete_doc p_id (p_id p) (products db))).
    split; [|split; [exact Hmem|split; [exact Hlen|]]].
    + unfold delete_product. rewrite Hcast. simpl.
      by rewrite (find_NoDup p_id p) by done.
    + unfold get_product, findById. rewrite Hcast. simpl.
      by rewrite (find_none_id _ _ _ Hgone).
  - intros r Hnodup Hin <-.
    destruct (delete_doc_unique o_id r _ Hnodup Hin) as (Hmem & Hgone & Hlen).
    exists (set_orders db (delete_doc o_id (o_id r) (orders db))).
    split; [|split; [exact Hmem|split; [exact Hlen|]]].
    + unfold delete_order. rewrite Hcast. simpl.
      by rewrite (find_NoDup o_id r) by done.
    + unfold get_order, findById. rewrite Hcast. simpl.
      by rewrite (find_none_id _ _ _ Hgone).
Qed.

(** *** Who may act on an order *)

(** Reading, updating and deleting an order by id do not look at the
    caller: two callers with valid tokens for different users get the same
    answer and the same write for the same route and body, whoever owns the
    order. *)
Theorem order_by_id_ignores_caller (env : Env) (req1 req2 : Request) (db : Db)
    (id token1 token2 : string) (user1 user2 : JwtClaims) :
  route req1 = GET_orders_id id \/ route req1 = PUT_orders_id id \/
    route req1 = DELETE_orders_id id ->
  route req2 = route req1 -> body req2 = body req1 ->
  bearer_token req1 = Some token1 -> token1 <> "" ->
  jwt_verify token1 (JWT_SECRET env) (now env / 1000) = inr user1 ->
  bearer_token req2 = Some token2 -> token2 <> "" ->
  jwt_verify token2 (JWT_SECRET env) (now env / 1000) = inr user2 ->
  app env req1 db = app env req2 db.
Proof.
  intros Hroute Hsame Hbody Ht1 Hne1 Hv1 Ht2 Hne2 Hv2.
  unfold app. rewrite Hsame.
  destruct Hroute as [-> | [-> | ->]];
    rewrite (authenticateToken_verified _ _ _ _ token1), Hv1 by done;
    rewrite (authenticateToken_verified _ _ _ _ token2), Hv2 by done;
    try done.
  unfold update_order. by rewrite Hbody.
Qed.

(** *** The Authorization header *)

Lemma split_first_word (word rest : string) :
  lacks " " word = true ->
  split " " (word ++ String " " rest) = word :: split " " rest.
Proof.
  induction word as [|c word IH]; [done|].
  change (String c word ++ String " " rest)
    with (String c (word ++ String " " rest)).
  simpl. intros [Hc Hword]%andb_prop. apply negb_true_iff in Hc.
  by rewrite Hc, IH.
Qed.

(** The middleware never looks at the scheme word of the header: whatever
    stands before the first blank, the token is the word that follows it, so
    a header with another scheme than Bearer is treated like the Bearer
    header with the same rest.  A header with two blanks after the scheme
    has an empty token and is answered 401. *)
Theorem authorization_scheme_ignored (env : Env) (req req' : Request) (db : Db)
    (next : JwtClaims -> Db -> Result) (scheme rest : string) :
  lacks " " scheme = true ->
  authorization req' = Some ("Bearer " ++ rest) ->
  (authorization req = Some (scheme ++ " " ++ rest) ->
     authenticateToken env req db next = authenticateToken env req' db next) /\
  (authorization req = Some (scheme ++ "  " ++ rest) ->
     authenticateToken env req db next = (db, sendStatus 401)).
Proof.
  intros Hscheme Hbearer. split; intros Hheader.
  - assert (Hsame : bearer_token req = bearer_token req').
    { unfold bearer_token. rewrite Hheader, Hbearer. simpl.
      change (scheme ++ " " ++ rest) with (scheme ++ String " " rest).
      change ("Bearer " ++ rest) with ("Bearer" ++ String " " rest).
      by rewrite !split_first_word. }
    unfold authenticateToken. by rewrite Hsame.
  - apply authenticateToken_no_token. unfold bearer_token. rewrite Hheader. simpl.
    change (scheme ++ "  " ++ rest) with (scheme ++ String " " (String " " rest)).
    by rewrite split_first_word.
Qed.

(** *** Requests without a password string *)

(** A login whose password is missing or is not a string is answered 400
    when the email selects no user and 500 when it selects one, because
    [bcrypt.compare] throws: the status tells whether the email is
    registered. *)
Theorem login_without_password_string (env : Env) (req : Request) (db : Db)
    (by_email : string -> bool) :
  query_string (field (body req) "email") = Some by_email ->
  (forall data, field (body req) "password" <> JStr data) ->
  login env req db =
    match List.find (fun u => by_email (u_email u)) (users db) with
    | None => (db, json 400 (Message "Invalid email or password"))
    | Some _ => (db, json 500 (Message "Login failed"))
    end.
Proof.
  intros Hquery Hpassword. unfold login, try_catch. rewrite Hquery. simpl.
  destruct (List.find _ (users db)) as [user|]; [|done].
  destruct (field (body req) "password") as [| |b|n|data] eqn:Hp; try done.
  by destruct (Hpassword data).
Qed.

(** A registration whose password is missing or is not a string is answered
    400 when the username or the email is taken (the check comes first) and
    500 otherwise, because [bcrypt.hash] throws; nothing is stored. *)
Theorem register_without_password_string (env : Env) (req : Request) (db : Db)
    (by_username by_email : string -> bool) :
  query_string (field (body req) "username") = Some by_username ->
  query_string (field (body req) "email") = Some by_email ->
  (forall data, field (body req) "password" <> JStr data) ->
  register env req db =
    match List.find (fun u => by_username (u_username u) || by_email (u_email u))
            (users db) with
    | Some _ => (db, json 400 (Message "Username or email already exists"))
    | None => (db, json 500 (Message "User registration failed"))
    end.
Proof.
  intros Hu He Hpassword. unfold register, try_catch. rewrite Hu, He. simpl.
  destruct (List.find _ (users db)) as [user|]; [done|].
  destruct (field (body req) "password") as [| |b|n|data] eqn:Hp; try done.
  by destruct (Hpassword data).
Qed.

(** *** One request, at most one write *)

(** Reads the outcome of the steps of a handler that guard its write. *)
Ltac guards :=
  repeat match goal with
    | H : insert_doc _ _ _ = Some _ |- _ => apply insert_doc_Some in H as [-> ?]
    | H : _ && _ = true |- _ => apply andb_prop in H as [? ?]
    | H : List.find (has_id _ _) _ = Some _ |- _ =>
        let Hid := fresh "Hid" in
        pose proof (proj2 (find_has_id _ _ _ _ H)) as Hid; simpl in Hid;
        rewrite <- Hid in H; clear Hid
    end.

Lemma register_write env req db : Write db (register env req db).1.
Proof.
  unfold register, hashPassword, User_insert. branches; try apply Write_nothing.
  guards. by apply Insert_user.
Qed.

Lemma update_user_write env _id req db : Write db (update_user env _id req db).1.
Proof.
  unfold update_user, findById, hashPassword, User_save.
  branches; try apply Write_nothing; guards; by eapply Save_user.
Qed.

Lemma delete_user_write id db : Write db (delete_user id db).1.
Proof. unfold delete_user. branches; try apply Write_nothing. apply Delete_user. Qed.

Lemma create_product_write env req db : Write db (create_product env req db).1.
Proof.
  unfold create_product, Product_insert. branches; try apply Write_nothing.
  guards. by apply Insert_product.
Qed.

Lemma update_product_write _id req db : Write db (update_product _id req db).1.
Proof.
  unfold update_product, findById, Product_save.
  branches; try apply Write_nothing; guards; by eapply Save_product.
Qed.

Lemma delete_product_write id db : Write db (delete_product id db).1.
Proof.
  unfold delete_product. branches; try apply Write_nothing. apply Delete_product.
Qed.

Lemma create_order_write env user req db : Write db (create_order env user req db).1.
Proof.
  unfold create_order, Order_insert. branches; try apply Write_nothing.
  guards. by apply Insert_order.
Qed.

Lemma update_order_write id req db : Write db (update_order id req db).1.
Proof.
  unfold update_order, findById, Order_save.
  branches; try apply Write_nothing; guards; by eapply Save_order.
Qed.

Lemma delete_order_write id db : Write db (delete_order id db).1.
Proof. unfold delete_order. branches; try apply Write_nothing. apply Delete_order. Qed.

(** Whatever the request, the application changes the database by at most
    one write: an insertion, a save or a deletion of one document, each
    under the validation and the indexes of its collection. *)
Theorem app_write (env : Env) (req : Request) (db : Db) :
  Write db (app env req db).1.
Proof.
  unfold app. destruct (route req).
  - apply register_write.
  - apply Write_nothing.
  - rewrite get_user_frame. apply Write_nothing.
  - apply update_user_write.
  - apply delete_user_write.
  - rewrite login_frame. apply Write_nothing.
  - apply create_product_write.
  - rewrite list_products_frame. apply Write_nothing.
  - rewrite get_product_frame. apply Write_nothing.
  - apply update_product_write.
  - apply delete_product_write.
  - through_auth env req db (fun user db => create_order env user req db);
      try apply Write_nothing. apply create_order_write.
  - through_auth env req db (fun user db => list_orders user db);
      try apply Write_nothing. rewrite list_orders_frame. apply Write_nothing.
  - through_auth env req db (fun (_ : JwtClaims) db => get_order id db);
      try apply Write_nothing. rewrite get_order_frame. apply Write_nothing.
  - through_auth env req db (fun (_ : JwtClaims) db => update_order id req db);
      try apply Write_nothing. apply update_order_write.
  - through_auth env req db (fun (_ : JwtClaims) db => delete_order id db);
      try apply Write_nothing. apply delete_order_write.
Qed.

(** *** The schema and the indexes are kept *)

Lemma write_keeps_schema (db db' : Db) :
  Write db db' -> schema_holds db -> schema_holds db'.
Proof.
  intros Hwrite (Husers & Hproducts & Horders).
  destruct Hwrite; repeat split; simpl; try done.
  - apply Forall_app. split; [done|]. by constructor.
  - by apply replace_doc_Forall.
  - by apply delete_doc_Forall.
  - apply Forall_app. split; [done|]. by constructor.
  - by apply replace_doc_Forall.
  - by apply delete_doc_Forall.
  - apply Forall_app. split; [done|]. by constructor.
  - by apply replace_doc_Forall.
  - by apply delete_doc_Forall.
Qed.

Lemma map_replace_doc {A : Type} (key : A -> ObjectId) (d : A) (docs : list A) :
  List.map key (replace_doc key d docs) = List.map key docs.
Proof.
  induction docs as [|x rest IH]; simpl; [done|].
  destruct (has_id key (key d) x) eqn:Hid; simpl; [|by rewrite IH].
  apply has_id_true in Hid. by rewrite Hid.
Qed.

Lemma delete_doc_subset {A : Type} (key : A -> ObjectId) (o : ObjectId)
    (docs : list A) (x : A) :
  x ∈ delete_doc key o docs -> x ∈ docs.
Proof.
  induction docs as [|y rest IH]; simpl; [done|].
  destruct (has_id key o y); [intros Hx; apply elem_of_cons; by right|].
  intros [->|Hx]%elem_of_cons; apply elem_of_cons; [by left|right; by apply IH].
Qed.

Lemma NoDup_map_delete_doc {A K : Type} (key : A -> ObjectId) (f : A -> K)
    (o : ObjectId) (docs : list A) :
  NoDup (List.map f docs) -> NoDup (List.map f (delete_doc key o docs)).
Proof.
  induction docs as [|y rest IH]; simpl; [done|].
  intros [Hy Hrest]%NoDup_cons. destruct (has_id key o y); [done|].
  simpl. apply NoDup_cons. split; [|by apply IH].
  intros (x & Hfx & Hx%list_elem_of_In)%list_elem_of_In%List.in_map_iff.
  apply Hy. rewrite <- Hfx.
  apply list_elem_of_In, List.in_map, list_elem_of_In.
  by eapply delete_doc_subset.
Qed.

Lemma NoDup_map_insert {A K : Type} (f : A -> K) (d : A) (docs : list A) :
  NoDup (List.map f docs) -> Forall (fun x => f x <> f d) docs ->
  NoDup (List.map f (docs ++ [d])%list).
Proof.
  intros Hnodup Hfresh. rewrite List.map_app. apply NoDup_app.
  split; [done|]. split; [|by apply NoDup_singleton].
  intros k (x & <- & Hx%list_elem_of_In)%list_elem_of_In%List.in_map_iff.
  intros Heq%list_elem_of_singleton.
  rewrite Forall_forall in Hfresh. by apply (Hfresh x).
Qed.

Lemma NoDup_map_replace {A K : Type} (f : A -> K) (old new : A) (l1 l2 : list A) :
  NoDup (List.map f (l1 ++ old :: l2)%list) ->
  (forall x, x ∈ (l1 ++ l2)%list -> f x <> f new) ->
  NoDup (List.map f (l1 ++ new :: l2)%list).
Proof.
  rewrite !List.map_app. simpl.
  intros (H1 & Hsep & [Hold H2]%NoDup_cons)%NoDup_app Hnew.
  apply NoDup_app. split; [done|]. split.
  - intros k Hk [->|Hk2]%elem_of_cons.
    + apply list_elem_of_In, List.in_map_iff in Hk as (x & Hfx & Hx%list_elem_of_In).
      apply (Hnew x); [|done]. apply elem_of_app. by left.
    + apply (Hsep k Hk). apply elem_of_cons. by right.
  - apply NoDup_cons. split; [|done].
    intros (x & Hfx & Hx%list_elem_of_In)%list_elem_of_In%List.in_map_iff.
    apply (Hnew x); [|done]. apply elem_of_app. by right.
Qed.

(** Saving a user under the unique indexes keeps usernames and emails
    distinct, ids being distinct. *)
Lemma save_user_keeps_unique (old new : User) (docs : list User) :
  List.find (has_id u_id (u_id new)) docs = Some old ->
  User_unique new docs = true ->
  NoDup (List.map u_id docs) ->
  NoDup (List.map u_username docs) -> NoDup (List.map u_email docs) ->
  NoDup (List.map u_username (replace_doc u_id new docs)) /\
  NoDup (List.map u_email (replace_doc u_id new docs)).
Proof.
  intros Hfind Hunique Hids Hnames Hemails.
  pose proof (proj2 (find_has_id _ _ _ _ Hfind)) as Hold.
  destruct (replace_doc_found _ _ _ _ Hfind) as (l1 & l2 & -> & -> & _).
  assert (Hothers : forall x, x ∈ (l1 ++ l2)%list ->
            u_username x <> u_username new /\ u_email x <> u_email new).
  { intros x Hx. unfold User_unique in Hunique. rewrite forallb_forall in Hunique.
    assert (Hin : x ∈ (l1 ++ old :: l2)%list).
    { apply elem_of_app in Hx as [Hx|Hx]; apply elem_of_app; [by left|].
      right. apply elem_of_cons. by right. }
    specialize (Hunique x (proj1 (list_elem_of_In _ _) Hin)).
    apply orb_true_iff in Hunique as [Hsame|Hdiffer].
    - exfalso. apply has_id_true in Hsame. rewrite <- Hold in Hsame.
      rewrite List.map_app in Hids. simpl in Hids.
      apply NoDup_app in Hids as (_ & Hsep & [Hnot _]%NoDup_cons).
      apply elem_of_app in Hx as [Hx|Hx].
      + apply (Hsep (u_id x)).
        * apply list_elem_of_In, List.in_map, list_elem_of_In, Hx.
        * rewrite Hsame. apply elem_of_cons. by left.
      + apply Hnot. rewrite <- Hsame.
        apply list_elem_of_In, List.in_map, list_elem_of_In, Hx.
    - apply andb_prop in Hdiffer as [Hn He].
      apply negb_true_iff, String.eqb_neq in Hn, He. done. }
  split; eapply NoDup_map_replace; try eassumption; intros x Hx; by apply Hothers.
Qed.

Lemma write_keeps_indexes (db db' : Db) :
  Write db db' -> indexes_hold db -> indexes_hold db'.
Proof.
  intros Hwrite (Hids & Hnames & Hemails & Hproducts & Horders).
  destruct Hwrite as [|u Hvalid Hunique Hfresh|old new Hfind Hvalid Hunique|o
                      |p Hvalid Hfresh|old new Hfind Hvalid|o
                      |r Hvalid Hfresh|old new Hfind Hvalid _ _ _|o];
    unfold indexes_hold; simpl; repeat split; try done.
  - by apply NoDup_map_insert.
  - apply NoDup_map_insert; [done|].
    unfold User_unique in Hunique. rewrite forallb_forall in Hunique.
    apply Forall_forall. intros x Hx.
    specialize (Hunique x (proj1 (list_elem_of_In _ _) Hx)).
    rewrite Forall_forall in Hfresh.
    apply orb_true_iff in Hunique as [Hsame%has_id_true|Hdiffer].
    + by apply Hfresh in Hx.
    + apply andb_prop in Hdiffer as [Hn _]. by apply negb_true_iff, String.eqb_neq in Hn.
  - apply NoDup_map_insert; [done|].
    unfold User_unique in Hunique. rewrite forallb_forall in Hunique.
    apply Forall_forall. intros x Hx.
    specialize (Hunique x (proj1 (list_elem_of_In _ _) Hx)).
    rewrite Forall_forall in Hfresh.
    apply orb_true_iff in Hunique as [Hsame%has_id_true|Hdiffer].
    + by apply Hfresh in Hx.
    + apply andb_prop in Hdiffer as [_ He]. by apply negb_true_iff, String.eqb_neq in He.
  - by rewrite map_replace_doc.
  - by apply (save_user_keeps_unique old).
  - by apply (save_user_keeps_unique old).
  - by apply NoDup_map_delete_doc.
  - by apply NoDup_map_delete_doc.
  - by apply NoDup_map_delete_doc.
  - by apply NoDup_map_insert.
  - by rewrite map_replace_doc.
  - by apply NoDup_map_delete_doc.
  - by apply NoDup_map_insert.
  - by rewrite map_replace_doc.
  - by apply NoDup_map_delete_doc.
Qed.

(** Whatever the requests and what they read from outside, the database they
    lead to from empty collections has distinct ids in every collection and
    distinct usernames and emails, holds only documents that pass their
    schema (non-empty required strings, a status among pending, completed
    and canceled), and only passwords that came out of the hasher. *)
Theorem served_database_is_sound (requests : list (Env * Request)) :
  indexes_hold (serve requests empty_db) /\
  schema_holds (serve requests empty_db) /\
  passwords_hashed (serve requests empty_db).
Proof.
  unfold serve.
  assert (Hstart : indexes_hold empty_db /\ schema_holds empty_db /\
                   passwords_hashed empty_db).
  { unfold indexes_hold, schema_holds, passwords_hashed. simpl.
    repeat split; by constructor. }
  revert Hstart. generalize empty_db.
  induction requests as [|[env req] requests IH]; intros db Hdb; [done|].
  simpl. apply IH. destruct Hdb as (Hindexes & Hschema & Hhashed).
  split; [|split].
  - eapply write_keeps_indexes; [apply app_write|done].
  - eapply write_keeps_schema; [apply app_write|done].
  - by apply app_users_hashed.
Qed.

(** *** From registration to an authenticated request *)

Lemma find_app_none {A : Type} (f : A -> bool) (l1 l2 : list A) :
  List.find f l1 = None -> List.find f (l1 ++ l2)%list = List.find f l2.
Proof.
  induction l1 as [|x l1 IH]; simpl; [done|].
  destruct (f x); [done|]. exact IH.
Qed.

Lemma register_succeeds env req db username email password :
  query_string_str M -> cast_string_str M -> bcrypt_hash_nonempty B ->
  field (body req) "username" = JStr username ->
  field (body req) "email" = JStr email ->
  field (body req) "password" = JStr password ->
  username <> "" -> email <> "" ->
  Forall (fun x => u_username x <> username /\ u_email x <> email /\ u_id x <> new_id env)
         (users db) ->
  register env req db =
    (set_users db
       (users db ++ [{| u_id := new_id env; u_username := username; u_email := email;
                        u_password := bcrypt_hash password 10 (salt env);
                        u_profileImage := file req |}])%list,
     json 201 (Message "User registered successfully")).
Proof.
  intros Hquery Hcast Hhash Hu He Hp Hune Hene Hfree.
  unfold register. rewrite Hu, He, Hp.
  destruct (Hquery username) as (fu & -> & Hfu).
  destruct (Hquery email) as (fe & -> & Hfe). simpl.
  rewrite find_none_Forall; cycle 1.
  { eapply Forall_impl; [exact Hfree|]. intros x (Hxu & Hxe & _). simpl.
    rewrite Hfu, Hfe. apply orb_false_iff.
    split; apply String.eqb_neq; congruence. }
  rewrite !Hcast. simpl.
  unfold User_insert, User_valid, User_unique. simpl.
  rewrite (proj2 (nonempty_true username) Hune), (proj2 (nonempty_true email) Hene),
    (proj2 (nonempty_true _) (Hhash password 10 (salt env))). simpl.
  rewrite (proj2 (forallb_forall _ (users db))); cycle 1.
  { intros x Hx%list_elem_of_In.
    rewrite Forall_forall in Hfree. destruct (Hfree x Hx) as (Hxu & Hxe & _).
    apply orb_true_iff. right. apply andb_true_iff.
    split; apply negb_true_iff, String.eqb_neq; done. }
  rewrite insert_doc_fresh; [done|].
  eapply Forall_impl; [exact Hfree|]. by intros x (_ & _ & Hid).
Qed.

Lemma issued_token_is_accepted env env' user token req db next :
  jwt_token_shape J -> jwt_sign_verify J ->
  generateToken env user = Some token ->
  JWT_SECRET env' = JWT_SECRET env ->
  authorization req = Some ("Bearer " ++ token) ->
  now env' / 1000 < now env / 1000 + 3600 ->
  authenticateToken env' req db next =
    next {| claim_id := oid_str (u_id user); claim_username := u_username user;
            claim_iat := now env / 1000; claim_exp := now env / 1000 + 3600 |} db.
Proof.
  intros Hshape Hrt Htoken Hsame Hauth Hclock.
  destruct (Hshape _ _ _ _ _ Htoken) as [Hne Hblank].
  assert (Hbearer : bearer_token req = Some token).
  { unfold bearer_token. rewrite Hauth. simpl mbind. by apply split_bearer. }
  pose proof (Hrt _ _ _ _ _ (now env' / 1000) Htoken) as Hv. simpl in Hv.
  rewrite (authenticateToken_verified _ _ _ _ token) by done.
  rewrite Hsame, Hv. apply Z.ltb_lt in Hclock. by rewrite Hclock.
Qed.

(** End to end: after a registration (non-empty username and email that
    are free, a password string), a login with the same email and password
    is answered 200 with a token, and that token, presented as Bearer within
    its hour under the same secret, lets the middleware pass to the handler
    the id given at registration and the registered username. *)
Theorem register_login_authenticate (env : Env) (req : Request) (db : Db)
    (username email password : string) :
  query_string_str M -> cast_string_str M ->
  bcrypt_hash_nonempty B -> bcrypt_compare_hash B ->
  jwt_sign_defined J -> jwt_token_shape J -> jwt_sign_verify J ->
  field (body req) "username" = JStr username ->
  field (body req) "email" = JStr email ->
  field (body req) "password" = JStr password ->
  username <> "" -> email <> "" ->
  Forall (fun x => u_username x <> username /\ u_email x <> email /\ u_id x <> new_id env)
         (users db) ->
  status (register env req db).2 = 201 /\
  forall (env1 : Env) (req1 : Request),
    JWT_SECRET env1 <> "" ->
    field (body req1) "email" = JStr email ->
    field (body req1) "password" = JStr password ->
    exists token,
      login env1 req1 (register env req db).1 =
        ((register env req db).1, json 200 (LoginJson "Login successful" token)) /\
      forall (env2 : Env) (req2 : Request) (db2 : Db) (next : JwtClaims -> Db -> Result),
        JWT_SECRET env2 = JWT_SECRET env1 ->
        authorization req2 = Some ("Bearer " ++ token) ->
        now env2 / 1000 < now env1 / 1000 + 3600 ->
        authenticateToken env2 req2 db2 next =
          next {| claim_id := oid_str (new_id env); claim_username := username;
                  claim_iat := now env1 / 1000;
                  claim_exp := now env1 / 1000 + 3600 |} db2.
Proof.
  intros Hquery Hcast Hhash Hcompare Hsign Hshape Hrt Hu He Hp Hune Hene Hfree.
  rewrite (register_succeeds env req db username email password) by done.
  split; [done|]. simpl.
  intros env1 req1 Hsecret He1 Hp1.
  set (newUser := {| u_id := new_id env; u_username := username; u_email := email;
                     u_password := bcrypt_hash password 10 (salt env);
                     u_profileImage := file req |}).
  destruct (Hquery email) as (by_email & Hby & Hmatch).
  destruct (login_accepts env1 req1 (set_users db (users db ++ [newUser])%list)
              by_email newUser password 10 (salt env)) as (token & Htoken & Hlogin);
    try done.
  { by rewrite He1. }
  { simpl. rewrite find_app_none.
    - simpl. by rewrite Hmatch, String.eqb_refl.
    - apply find_none_Forall. eapply Forall_impl; [exact Hfree|].
      intros x (_ & Hxe & _). simpl. rewrite Hmatch. apply String.eqb_neq. congruence. }
  exists token. split; [exact Hlogin|].
  intros env2 req2 db2 next Hsame Hauth Hclock.
  by rewrite (issued_token_is_accepted env1 env2 newUser token).
Qed.

(** *** Creating and listing orders *)

(** An order created for a caller is, right after, the last entry of the
    caller's own listing, and the listing of a caller with another id is
    what it was before. *)
Theorem created_order_is_listed (env : Env) (user : JwtClaims) (req : Request)
    (db db' : Db) (res : Response) :
  create_order env user req db = (db', res) -> status res = 201 ->
  exists order,
    payload res = OrderJson order /\
    castObjectId (JStr (claim_id user)) = Some (o_userId order) /\
    list_orders user db' =
      (db', json 200 (PopulatedListJson
                        (List.map (populate db)
                           (List.filter
                              (fun o => bool_decide (o_userId o = o_userId order))
                              (orders db))
                         ++ [populate db order])%list)) /\
    forall (other : JwtClaims) (uid : ObjectId),
      castObjectId (JStr (claim_id other)) = Some uid -> uid <> o_userId order ->
      (list_orders other db').2 = (list_orders other db).2.
Proof.
  intros Hrun Hstatus.
  destruct (create_order_created _ _ _ _ _ _ Hrun Hstatus)
    as (order & -> & -> & Huser & _).
  exists order. split; [done|]. split; [done|]. split.
  - unfold list_orders. rewrite Huser. simpl.
    rewrite List.filter_app, List.map_app. simpl.
    by rewrite bool_decide_eq_true_2.
  - intros other uid Hcast Hne. unfold list_orders. rewrite Hcast. simpl.
    rewrite List.filter_app. simpl.
    rewrite bool_decide_eq_false_2 by congruence.
    by rewrite List.app_nil_r.
Qed.

(** *** Updating an order *)


(** *** Updating a user *)

Lemma forallb_false {A : Type} (f : A -> bool) (l : list A) (x : A) :
  x ∈ l -> f x = false -> forallb f l = false.
Proof.
  induction 1 as [x l|x y l _ IH]; simpl; intros Hx.
  - by rewrite Hx.
  - rewrite (IH Hx). apply andb_false_r.
Qed.

(** An update that would give a user the username or the email of another
    stored user is answered 500 and nothing is written: the save fails on
    the unique index. *)
Theorem update_user_conflict (env : Env) (_id : string) (req : Request) (db : Db)
    (old other : User) (taken : string) :
  cast_string_str M ->
  findById u_id _id (users db) = Some (Some old) ->
  other ∈ users db -> u_id other <> u_id old -> taken <> "" ->
  (field (body req) "username" = JStr taken /\ u_username other = taken) \/
  (field (body req) "email" = JStr taken /\ u_email other = taken) ->
  update_user env _id req db = (db, json 500 (Message "Failed to update user")).
Proof.
  intros Hcast Hfind Hother Hid Hne Htaken.
  assert (Htruthy : truthy (JStr taken) = true).
  { simpl. by apply negb_true_iff, String.eqb_neq. }
  unfold update_user, try_catch. rewrite Hfind. simpl.
  destruct (castString (or_else (field (body req) "username") _)) as [u|] eqn:Hu;
    simpl; [|done].
  destruct (castString (or_else (field (body req) "email") _)) as [e|] eqn:He;
    simpl; [|done].
  destruct (if truthy (field (body req) "password") then _ else _) as [p|];
    simpl; [|done].
  unfold User_save.
  match goal with
  | |- context [User_unique ?new (users db)] =>
      assert (User_unique new (users db) = false) as ->;
        [|by rewrite andb_false_r]
  end.
  apply (forallb_false _ _ other Hother). simpl.
  apply orb_false_iff. split.
  - destruct (has_id u_id (u_id old) other) eqn:Hsame; [|done].
    by apply has_id_true in Hsame.
  - destruct Htaken as [[Hfield <-]|[Hfield <-]].
    + rewrite Hfield in Hu. unfold or_else in Hu. rewrite Htruthy, Hcast in Hu.
      injection Hu as <-. by rewrite String.eqb_refl.
    + rewrite Hfield in He. unfold or_else in He. rewrite Htruthy, Hcast in He.
      injection He as <-. rewrite String.eqb_refl. apply andb_false_r.
Qed.

(** A user update answered 200 replaces the user found by one with the
    same id whose username and email are the cast of the value supplied
    when that is truthy and the prior value otherwise, and whose profile
    image is the uploaded file when there is one and the prior image
    otherwise. *)
Theorem update_user_merges (env : Env) (_id : string) (req : Request)
    (db db' : Db) (res : Response) :
  cast_string_str M ->
  update_user env _id req db = (db', res) -> status res = 200 ->
  exists old new,
    findById u_id _id (users db) = Some (Some old) /\
    db' = set_users db (replace_doc u_id new (users db)) /\
    payload res = UserJson new /\
    u_id new = u_id old /\
    (if truthy (field (body req) "username")
     then castString (field (body req) "username") = Some (u_username new)
     else u_username new = u_username old) /\
    (if truthy (field (body req) "email")
     then castString (field (body req) "email") = Some (u_email new)
     else u_email new = u_email old) /\
    u_profileImage new =
      (if truthy_str (file req) then file req else u_profileImage old).
Proof.
  intros Hcast. unfold update_user, try_catch.
  destruct (findById u_id _id (users db)) as [[old|]|]; simpl;
    try (intros [= <- <-]; simpl; intros; discriminate).
  destruct (castString (or_else (field (body req) "username") _)) as [u|] eqn:Hu;
    simpl; [|intros [= <- <-]; simpl; intros; discriminate].
  destruct (castString (or_else (field (body req) "email") _)) as [e|] eqn:He;
    simpl; [|intros [= <- <-]; simpl; intros; discriminate].
  destruct (if truthy (field (body req) "password") then _ else _) as [p|];
    simpl; [|intros [= <- <-]; simpl; intros; discriminate].
  unfold User_save. destruct (User_valid _ && User_unique _ _); simpl;
    [|intros [= <- <-]; simpl; intros; discriminate].
  intros [= <- <-] _. eexists old, _. repeat split.
  - by apply merged_string.
  - by apply merged_string.
Qed.

(** *** Creating a product *)

(** A product whose name, category and description are strings and whose
    price is a number is stored, with a 201 answer, exactly when the three
    strings are non-empty; otherwise the answer is 400 and nothing is
    stored.  The price is not examined: zero and negative prices are
    stored. *)
Theorem create_product_validates (env : Env) (req : Request) (db : Db)
    (name category description : string) (price : Z) :
  cast_string_str M -> cast_number_num M ->
  field (body req) "name" = JStr name ->
  field (body req) "price" = JNum price ->
  field (body req) "category" = JStr category ->
  field (body req) "description" = JStr description ->
  Forall (fun x => p_id x <> new_id env) (products db) ->
  let product := {| p_id := new_id env; p_name := name; p_price := price;
                    p_category := category; p_description := description;
                    p_image := file req |} in
  create_product env req db =
    if nonempty name && nonempty category && nonempty description
    then (set_products db (products db ++ [product])%list, json 201 (ProductJson product))
    else (db, json 400 ErrorMessage).
Proof.
  intros Hstr Hnum Hn Hp Hc Hd Hfresh product.
  unfold create_product, try_catch. rewrite Hn, Hp, Hc, Hd, !Hstr, Hnum. simpl.
  fold product. unfold Product_insert, Product_valid. simpl.
  destruct (nonempty name && nonempty category && nonempty description); [|done].
  by rewrite (insert_doc_fresh p_id product).
Qed.

(** *** Dangling references *)

(** Deleting a product (ids being unique) leaves the orders as they are,
    and from then on an order that refers to it is populated with null. *)
Theorem deleted_product_reads_as_null (id : string) (db : Db) (p : Product) :
  castObjectId (JStr id) = Some (p_id p) ->
  NoDup (List.map p_id (products db)) -> p ∈ products db ->
  status (delete_product id db).2 = 200 /\
  orders (delete_product id db).1 = orders db /\
  forall r, o_productId r = p_id p ->
    populate (delete_product id db).1 r = (r, None) /\
    populate db r = (r, Some p).
Proof.
  intros Hcast Hnodup Hin.
  destruct (delete_doc_unique p_id p _ Hnodup Hin) as (_ & Hgone & _).
  unfold delete_product, try_catch. rewrite Hcast. simpl.
  rewrite (find_NoDup p_id p) by done. simpl.
  split; [done|]. split; [done|].
  intros r Href. unfold populate. simpl. rewrite Href.
  by rewrite (find_none_id _ _ _ Hgone), (find_NoDup p_id p).
Qed.

(** The order routes neither read nor write the users: with any other
    collection of users in place, they give the same answer and the same
    orders and products.  So a token stays good after its user is deleted,
    and orders keep the reference to a deleted user. *)
Theorem order_routes_ignore_users (env : Env) (req : Request) (db : Db)
    (others : list User) :
  is_order_route (route req) = true ->
  app env req (set_users db others) =
    (set_users (app env req db).1 others, (app env req db).2).
Proof.
  intros Hroute.
  assert (Hauth : forall next next' : JwtClaims -> Db -> Result,
            (forall user, next' user (set_users db others) =
                          (set_users (next user db).1 others, (next user db).2)) ->
            authenticateToken env req (set_users db others) next' =
              (set_users (authenticateToken env req db next).1 others,
               (authenticateToken env req db next).2)).
  { intros next next' Hnext. unfold authenticateToken.
    destruct (negb (truthy_str (bearer_token req))); [done|].
    destruct (jwt_verify _ _ _) as [err|user]; [done|]. apply Hnext. }
  unfold app. destruct (route req); try discriminate; apply Hauth; intros user.
  - unfold create_order, try_catch, Order_insert.
    destruct (castObjectId (field (body req) "productId")); simpl; [|done].
    destruct (castObjectId (JStr (claim_id user))); simpl; [|done].
    destruct (castNumber (field (body req) "quantity")); simpl; [|done].
    by destruct (insert_doc _ _ _).
  - unfold list_orders, try_catch.
    by destruct (castObjectId (JStr (claim_id user))).
  - unfold get_order, try_catch, findById. simpl.
    destruct (castObjectId (JStr id)); simpl; [|done].
    by destruct (List.find _ (orders db)).
  - unfold update_order, try_catch, findById. simpl.
    destruct (castObjectId (JStr id)); simpl; [|done].
    destruct (List.find _ (orders db)) as [order|]; simpl; [|done].
    destruct (if truthy (field (body req) "quantity") then _ else _); simpl; [|done].
    destruct (if truthy (field (body req) "status") then _ else _); simpl; [|done].
    unfold Order_save. by destruct (Order_valid _).
  - unfold delete_order, try_catch. simpl.
    destruct (castObjectId (JStr id)); simpl; [|done].
    by destruct (List.find _ (orders db)).
Qed.

(** *** Requests that leave out a required field *)

Lemma field_missing (obj : gmap string JsValue) (key : string) :
  obj !! key = None -> field obj key = JUndefined.
Proof. intros Hmissing. unfold field. by rewrite Hmissing. Qed.

(** An order without product id or quantity and a product without name,
    price, category or description are answered 400 and not stored; a
    registration without username, email or password stores nothing and is
    not answered 201. *)
Theorem missing_field_is_rejected (env : Env) (user : JwtClaims) (req : Request)
    (db : Db) :
  cast_undefined M ->
  (body req !! "productId" = None \/ body req !! "quantity" = None ->
     create_order env user req db = (db, json 400 ErrorMessage)) /\
  (body req !! "name" = None \/ body req !! "price" = None \/
   body req !! "category" = None \/ body req !! "description" = None ->
     create_product env req db = (db, json 400 ErrorMessage)) /\
  (body req !! "username" = None \/ body req !! "email" = None \/
   body req !! "password" = None ->
     (register env req db).1 = db /\ status (register env req db).2 <> 201).
Proof.
  intros (Hoid & Hstr & Hnum). split; [|split].
  - intros Hmissing. unfold create_order, try_catch.
    destruct Hmissing as [Hmissing|Hmissing]; rewrite (field_missing _ _ Hmissing).
    + by rewrite Hoid.
    + rewrite Hnum.
      destruct (castObjectId (field (body req) "productId")); simpl; [|done].
      by destruct (castObjectId (JStr (claim_id user))).
  - intros Hmissing. unfold create_product, try_catch.
    destruct Hmissing as [Hmissing|[Hmissing|[Hmissing|Hmissing]]];
      rewrite (field_missing _ _ Hmissing), ?Hstr, ?Hnum; simpl; try done.
    + by destruct (castString (field (body req) "name")).
    + destruct (castString (field (body req) "name")); simpl; [|done].
      by destruct (castNumber (field (body req) "price")).
    + destruct (castString (field (body req) "name")); simpl; [|done].
      destruct (castNumber (field (body req) "price")); simpl; [|done].
      by destruct (castString (field (body req) "category")).
  - intros Hmissing. unfold register, try_catch.
    destruct (query_string (field (body req) "username")) as [fu|]; simpl; [|done].
    destruct (query_string (field (body req) "email")) as [fe|]; simpl; [|done].
    destruct (List.find _ (users db)); simpl; [done|].
    destruct (hashPassword env (field (body req) "password")) as [hashed|] eqn:Hhash;
      simpl; [|done].
    destruct Hmissing as [Hmissing|[Hmissing|Hmissing]];
      rewrite (field_missing _ _ Hmissing) in *.
    + by rewrite Hstr.
    + rewrite Hstr. by destruct (castString (field (body req) "username")).
    + done.
Qed.

End Routes.
(** ** The executable instance meets the laws *)

Module ToyLaws.
Import Toy.

Lemma append_cons (c : ascii) (s t : string) : String c s ++ t = String c (s ++ t).
Proof. reflexivity. Qed.

Lemma append_nil_r (s : string) : s ++ "" = s.
Proof. induction s as [|c s IH]; [done|]. by rewrite append_cons, IH. Qed.

Lemma length_append (s t : string) :
  String.length (s ++ t) = (String.length s + String.length t)%nat.
Proof. induction s as [|c s IH]; [done|]. rewrite append_cons. simpl. by rewrite IH. Qed.

Lemma lacks_append (c : ascii) (s t : string) :
  lacks c (s ++ t) = lacks c s && lacks c t.
Proof.
  induction s as [|a s IH]; [done|]. rewrite append_cons. simpl.
  by rewrite IH, andb_assoc.
Qed.

Lemma unbit_bit (b : bool) : unbit (bit b) = b.
Proof. by destruct b. Qed.

Lemma dec_pos_enc (p : positive) (rest : string) :
  dec_pos (enc_pos p ++ rest) = Some (p, rest).
Proof.
  induction p as [p IH|p IH|]; simpl enc_pos; rewrite ?append_cons; simpl;
    by rewrite ?IH.
Qed.

Lemma dec_Z_enc (z : Z) (rest : string) : dec_Z (enc_Z z ++ rest) = Some (z, rest).
Proof.
  destruct z as [|p|p]; simpl enc_Z; rewrite append_cons; simpl;
    by rewrite ?dec_pos_enc.
Qed.

Lemma dec_str_enc (s rest : string) : dec_str (enc_str s ++ rest) = Some (s, rest).
Proof.
  induction s as [|[b0 b1 b2 b3 b4 b5 b6 b7] s IH]; [done|].
  simpl enc_str. rewrite !append_cons. simpl. by rewrite IH, !unbit_bit.
Qed.

Lemma lacks_enc_pos (p : positive) : lacks " " (enc_pos p) = true.
Proof. induction p as [p IH|p IH|]; simpl; by rewrite ?IH. Qed.

Lemma lacks_enc_Z (z : Z) : lacks " " (enc_Z z) = true.
Proof. destruct z; simpl; by rewrite ?lacks_enc_pos. Qed.

Lemma lacks_enc_str (s : string) : lacks " " (enc_str s) = true.
Proof.
  induction s as [|[b0 b1 b2 b3 b4 b5 b6 b7] s IH]; [done|].
  simpl. rewrite IH. by destruct b0, b1, b2, b3, b4, b5, b6, b7.
Qed.

Lemma enc_str_nonempty (s rest : string) : enc_str s ++ rest <> "".
Proof. by destruct s as [|[b0 b1 b2 b3 b4 b5 b6 b7] s]. Qed.

Lemma jwt_defined : jwt_sign_defined jwt.
Proof.
  intros p secret ttl t Hsecret. simpl. unfold sign.
  apply String.eqb_neq in Hsecret. rewrite Hsecret. eauto.
Qed.

Lemma jwt_shape : jwt_token_shape jwt.
Proof.
  intros p secret ttl t token. simpl. unfold sign.
  destruct (String.eqb secret ""); [done|]. intros [= <-].
  split; [apply enc_str_nonempty|].
  by rewrite !lacks_append, !lacks_enc_str, !lacks_enc_Z.
Qed.

Lemma jwt_round_trip : jwt_sign_verify jwt.
Proof.
  intros p secret ttl t token t'. simpl. unfold sign.
  destruct (String.eqb secret "") eqn:Hsecret; [done|]. intros [= <-].
  unfold verify, decode.
  rewrite <- (append_nil_r (enc_Z (t + ttl))).
  repeat (rewrite ?dec_str_enc, ?dec_Z_enc; simpl).
  by rewrite String.eqb_refl, Hsecret.
Qed.

Lemma hash_nonempty : bcrypt_hash_nonempty bcrypt.
Proof. intros data rounds salt. apply enc_str_nonempty. Qed.

Lemma hash_not_plaintext : bcrypt_hash_not_plaintext bcrypt.
Proof.
  intros data rounds salt. simpl. unfold hash. intros Heq.
  apply (f_equal String.length) in Heq. rewrite length_append in Heq.
  destruct salt as [|[b0 b1 b2 b3 b4 b5 b6 b7] salt]; simpl in Heq; lia.
Qed.

Lemma compare_hash : bcrypt_compare_hash bcrypt.
Proof.
  intros data rounds salt. simpl. unfold hash_matches, hash.
  by rewrite dec_str_enc, String.eqb_refl.
Qed.

Lemma oid_round_trip : cast_oid_str mongoose.
Proof.
  intros o. simpl. unfold cast_oid.
  by rewrite <- (append_nil_r (enc_Z o)), dec_Z_enc.
Qed.

Lemma string_cast : cast_string_str mongoose.
Proof. by intros s. Qed.

Lemma number_cast : cast_number_num mongoose.
Proof. by intros n. Qed.

Lemma string_condition : query_string_str mongoose.
Proof. intros s. by exists (String.eqb s). Qed.

Lemma match_here_plain (q s : string) :
  all_chars regex_plain q = true -> match_here q s = prefix_ci q s.
Proof.
  revert s. induction q as [|a q IH]; intros s; simpl; [done|].
  intros [Ha Hq]%andb_prop. destruct s as [|b s]; [done|].
  rewrite (IH _ Hq).
  destruct (Ascii.eqb a ".") eqn:Hdot; [|done].
  apply Ascii.eqb_eq in Hdot as ->. done.
Qed.

Lemma search_plain (q s : string) :
  all_chars regex_plain q = true -> search q s = contains_ci q s.
Proof.
  intros Hq. induction s as [|b s IH]; simpl; rewrite (match_here_plain _ _ Hq);
    [done|]. by rewrite IH.
Qed.

Lemma regex_substring : regex_plain_substring mongoose.
Proof.
  intros q Hq. exists (search q). simpl. unfold regex. split.
  - assert (all_chars (fun c => regex_plain c || Ascii.eqb c ".") q = true) as ->;
      [|done].
    clear -Hq. induction q as [|a q IH]; simpl in *; [done|].
    apply andb_prop in Hq as [-> Hq]. simpl. by apply IH.
  - intros s _. by apply search_plain.
Qed.

Lemma regex_dot : regex_dot_any mongoose.
Proof.
  exists (search "."). split; [done|].
  induction s as [|b s IH]; [done|].
  change (search "." (String b s))
    with (negb (Ascii.eqb "010" b) && true || search "." s).
  change (all_chars (Ascii.eqb "010") (String b s))
    with (Ascii.eqb "010" b && all_chars (Ascii.eqb "010") s).
  rewrite IH.
  by destruct (Ascii.eqb "010" b), (all_chars (Ascii.eqb "010") s).
Qed.

End ToyLaws.

(** ** The theorems at work on the sample deployment *)

Import Sample.

#[local] Existing Instance Toy.jwt.
#[local] Existing Instance Toy.bcrypt.
#[local] Existing Instance Toy.mongoose.

Lemma C1_witness :
  is_order_route (route list_orders_anonymous) = true /\
  app env list_orders_anonymous db = (db, sendStatus 401).
Proof.
  split; [reflexivity|].
  destruct (C1_orders_need_valid_token env list_orders_anonymous db eq_refl)
    as [Hmissing _].
  apply Hmissing. left. reflexivity.
Defined.

Lemma C3_witness :
  jwt_sign_defined Toy.jwt /\ jwt_token_shape Toy.jwt /\ jwt_sign_verify Toy.jwt /\
  JWT_SECRET env <> "" /\
  exists token,
    generateToken env alice = Some token /\
    authenticateToken env (request GET_orders (bearer token) [] None) db
      (fun user db => list_orders user db) = list_orders alice_claims db.
Proof.
  assert (Hsecret : JWT_SECRET env <> "") by discriminate.
  refine (conj ToyLaws.jwt_defined (conj ToyLaws.jwt_shape
            (conj ToyLaws.jwt_round_trip (conj Hsecret _)))).
  destruct (C3_token_round_trip env alice ToyLaws.jwt_defined ToyLaws.jwt_shape
              ToyLaws.jwt_round_trip Hsecret) as (token & Hissued & Hverify).
  exists token. split; [exact Hissued|].
  destruct (Hverify env (request GET_orders (bearer token) [] None) db
              (fun user db => list_orders user db) eq_refl eq_refl) as [Hfresh _].
  apply Hfresh. vm_compute. reflexivity.
Defined.

Lemma C2_witness :
  route create_order_alice = POST_orders /\
  status (app env create_order_alice db).2 = 201 /\
  exists order,
    orders (app env create_order_alice db).1 = (orders db ++ [order])%list /\
    o_userId order = u_id alice.
Proof.
  split; [reflexivity|]. split; [vm_compute; reflexivity|].
  destruct C2_order_user_reference as [Hcreate _].
  destruct (Hcreate env create_order_alice db
              (app env create_order_alice db).1 (app env create_order_alice db).2
              alice_token alice_claims) as (order & Horders & _ & _ & Huid).
  - reflexivity.
  - vm_compute. reflexivity.
  - discriminate.
  - vm_compute. reflexivity.
  - apply surjective_pairing.
  - vm_compute. reflexivity.
  - exists order. split; [exact Horders|].
    apply Huid; [apply ToyLaws.oid_round_trip | reflexivity].
Defined.

Lemma C4_witness :
  field (body register_carol) "email" = JStr "c@x.com" /\
  exists newUser,
    register env register_carol db =
      (set_users db (users db ++ [newUser])%list,
       json 201 (Message "User registered successfully")) /\
    u_email newUser = "c@x.com".
Proof.
  split; [vm_compute; reflexivity|].
  destruct (C4_registration_uniqueness env register_carol db "carol" "c@x.com" "pw3"
              ToyLaws.string_condition ToyLaws.string_cast ToyLaws.hash_nonempty)
    as (newUser & Hrun & _ & Hemail & _).
  - vm_compute. reflexivity.
  - vm_compute. reflexivity.
  - vm_compute. reflexivity.
  - discriminate.
  - discriminate.
  - repeat constructor; discriminate.
  - exists newUser. split; [exact Hrun | exact Hemail].
Defined.

Lemma C5_witness :
  route list_orders_alice = GET_orders /\
  exists listed,
    app env list_orders_alice db = (db, json 200 (PopulatedListJson listed)) /\
    List.map fst listed = [order1].
Proof.
  split; [reflexivity|].
  destruct (C5_order_listing env list_orders_alice db alice_token alice_claims 1)
    as (listed & Hrun & Hlisted & _).
  - reflexivity.
  - vm_compute. reflexivity.
  - discriminate.
  - vm_compute. reflexivity.
  - vm_compute. reflexivity.
  - exists listed. split; [exact Hrun|]. rewrite Hlisted. vm_compute. reflexivity.
Defined.

Lemma C6_witness :
  status (register env register_carol db).2 = 201 /\
  (exists newUser,
     users (register env register_carol db).1 = (users db ++ [newUser])%list /\
     u_password newUser = Toy.hash "pw3" 10 "salt") /\
  field (body Visits.bob_new_password) "password" = JStr "new" /\
  update_user env (Toy.enc_Z 2) Visits.bob_new_password db =
    (set_users db [alice; Visits.bob_rehashed], json 200 (UserJson Visits.bob_rehashed)) /\
  u_password Visits.bob_rehashed = Toy.hash "new" 10 "salt".
Proof.
  split; [vm_compute; reflexivity|].
  destruct C6_password_is_hashed as (Hregister & _ & _ & _ & Hupdate).
  split.
  - destruct (Hregister env register_carol db
                (register env register_carol db).1 (register env register_carol db).2)
      as (data & newUser & Hdata & Husers & Hhash & _).
    + apply surjective_pairing.
    + vm_compute. reflexivity.
    + exists newUser. split; [exact Husers|].
      vm_compute in Hdata. injection Hdata as <-. exact Hhash.
  - split; [reflexivity|]. split; [|reflexivity].
    destruct (Hupdate env (Toy.enc_Z 2) Visits.bob_new_password db bob
                "bob" "b@x.com" (Toy.hash "new" 10 "salt")) as [Hrun _].
    + reflexivity.
    + reflexivity.
    + reflexivity.
    + exists "new". split; reflexivity.
    + reflexivity.
    + reflexivity.
    + exact Hrun.
Defined.


Lemma C8_witness :
  route search_AB = GET_products /\
  app env search_AB db = (db, json 200 (ProductsJson [widget])).
Proof.
  split; [reflexivity|].
  destruct (C8_catalog_listing env search_AB db eq_refl) as (_ & Hquery & _).
  rewrite (Hquery "AB"); [reflexivity | reflexivity | discriminate].
Defined.

Lemma C9_witness :
  List.find (fun u => String.eqb "z@x.com" (u_email u)) (users db) = None /\
  List.find (fun u => String.eqb "a@x.com" (u_email u)) (users db) = Some alice /\
  compare (field (body login_wrong_password) "password") (u_password alice)
    = Some false /\
  (app env login_unknown db).2 = (app env login_wrong_password db).2.
Proof.
  assert (Hnone : List.find (fun u => String.eqb "z@x.com" (u_email u)) (users db) = None)
    by (vm_compute; reflexivity).
  assert (Hsome : List.find (fun u => String.eqb "a@x.com" (u_email u)) (users db)
                  = Some alice) by (vm_compute; reflexivity).
  assert (Hwrong : compare (field (body login_wrong_password) "password")
                     (u_password alice) = Some false)
    by (vm_compute; reflexivity).
  refine (conj Hnone (conj Hsome (conj Hwrong _))).
  destruct (C9_login_failures_indistinguishable env env login_unknown login_wrong_password db db
              (String.eqb "z@x.com") (String.eqb "a@x.com") alice
              eq_refl eq_refl eq_refl Hnone eq_refl Hsome Hwrong)
    as [Hsame _].
  exact Hsame.
Defined.

Lemma C10_witness :
  cast_oid_str Toy.mongoose /\ NoDup (List.map u_id (users db)) /\
  app env get_alice db = (db, json 200 (UserJson alice)).
Proof.
    assert (Hids : NoDup (List.map u_id (users db))).
  { apply (bool_decide_unpack _). vm_compute. exact I. }
  refine (conj ToyLaws.oid_round_trip (conj Hids _)).
  destruct (C10_user_reads_expose_password_hash env get_alice db) as (_ & Hone & _).
  destruct (Hone alice ToyLaws.oid_round_trip Hids) as [Hrun _].
  - apply list_elem_of_here.
  - reflexivity.
  - exact Hrun.
Defined.

(** [alice] orders a product id that no product has and is answered 201;
    listing her orders then returns that order with a null product. *)
Lemma C5_counterexample :
  app env create_orphan_alice db = (db_orphan, json 201 (OrderJson orphan)) /\
  app env list_orders_alice db_orphan =
    (db_orphan, json 200 (PopulatedListJson [(order1, Some widget); (orphan, None)])) /\
  ~ Forall (fun entry : Order * option Product => is_Some entry.2)
      [(order1, Some widget); (orphan, None)].
Proof.
  split; [vm_compute; reflexivity|]. split; [vm_compute; reflexivity|].
  intros Hall. apply Forall_cons in Hall as [_ Hall].
  apply Forall_cons in Hall as [[product Hproduct] _]. discriminate.
Qed.


(** The query [.] lists the product named abc, whose name does not contain
    a dot. *)
Lemma C8_counterexample :
  query search_dot = Some "." /\
  app env search_dot db = (db, json 200 (ProductsJson [widget])) /\
  contains_ci "." (p_name widget) = false.
Proof.
  split; [reflexivity|]. split; vm_compute; reflexivity.
Qed.


(** Two failing logins without a password: the one with the email of a
    stored user is answered 500, the one with an unknown email 400. *)
Lemma C9_counterexample :
  field (body Visits.login_no_password) "email" = JStr (u_email alice) /\
  List.find (fun u => String.eqb "z@x.com" (u_email u)) (users db) = None /\
  (app env Visits.login_no_password db).2 = json 500 (Message "Login failed") /\
  (app env Visits.login_unknown_no_password db).2 =
    json 400 (Message "Invalid email or password") /\
  (app env Visits.login_no_password db).2 <>
  (app env Visits.login_unknown_no_password db).2.
Proof.
  assert (Hknown : (app env Visits.login_no_password db).2
                   = json 500 (Message "Login failed")) by (vm_compute; reflexivity).
  assert (Hunknown : (app env Visits.login_unknown_no_password db).2
                     = json 400 (Message "Invalid email or password"))
    by (vm_compute; reflexivity).
  refine (conj eq_refl (conj eq_refl (conj Hknown (conj Hunknown _)))).
  rewrite Hknown, Hunknown. discriminate.
Qed.

(** ** The further properties at work on the sample deployment *)

Import Visits.

Lemma error_keeps_database_witness :
  400 <= status (app env list_orders_anonymous db).2 /\
  (app env list_orders_anonymous db).1 = db.
Proof.
  assert (Hstatus : 400 <= status (app env list_orders_anonymous db).2)
    by (vm_compute; discriminate).
  split; [exact Hstatus|]. by apply error_keeps_database.
Defined.

Lemma routes_write_their_collection_witness :
  writes_orders (route register_carol) = false /\
  orders (app env register_carol db).1 = orders db.
Proof.
  split; [reflexivity|].
  destruct (routes_write_their_collection env register_carol db) as (_ & _ & Horders).
  apply Horders. reflexivity.
Defined.

Lemma unknown_id_not_found_witness :
  castObjectId (JStr (Toy.enc_Z 77)) = Some 77 /\
  delete_user (Toy.enc_Z 77) db = (db, json 404 (Message "User not found")).
Proof.
  split; [reflexivity|].
  destruct (unknown_id_not_found (M:=Toy.mongoose) env (Toy.enc_Z 77) 77
              list_orders_anonymous db eq_refl)
    as (Husers & _).
  apply Husers. repeat constructor; discriminate.
Defined.

Lemma malformed_id_is_caught_witness :
  castObjectId (JStr "xyz") = None /\
  update_product "xyz" price_to_10 db = (db, json 400 ErrorMessage).
Proof.
  split; [reflexivity|].
  apply (malformed_id_is_caught env "xyz" price_to_10 db eq_refl).
Defined.

Lemma delete_then_read_is_404_witness :
  castObjectId (JStr (Toy.enc_Z 1)) = Some (u_id alice) /\
  exists db',
    delete_user (Toy.enc_Z 1) db = (db', json 200 (Message "User deleted successfully")) /\
    get_user (Toy.enc_Z 1) db' = (db', json 404 (Message "User not found")).
Proof.
  split; [reflexivity|].
  destruct (delete_then_read_is_404 (Toy.enc_Z 1) (u_id alice) db eq_refl)
    as (Husers & _).
  destruct (Husers alice) as (db' & Hdelete & _ & _ & Hread).
  - apply (bool_decide_unpack _). vm_compute. exact I.
  - apply list_elem_of_here.
  - reflexivity.
  - by exists db'.
Defined.

Lemma order_by_id_ignores_caller_witness :
  jwt_verify alice_token (JWT_SECRET env) (now env / 1000) = inr alice_claims /\
  jwt_verify bob_token (JWT_SECRET env) (now env / 1000) = inr bob_claims /\
  app env read_order1_alice db = app env read_order1_bob db.
Proof.
  assert (Halice : jwt_verify alice_token (JWT_SECRET env) (now env / 1000)
                   = inr alice_claims) by (vm_compute; reflexivity).
  assert (Hbob : jwt_verify bob_token (JWT_SECRET env) (now env / 1000)
                 = inr bob_claims) by (vm_compute; reflexivity).
  assert (Hheader1 : bearer_token read_order1_alice = Some alice_token)
    by (vm_compute; reflexivity).
  assert (Hheader2 : bearer_token read_order1_bob = Some bob_token)
    by (vm_compute; reflexivity).
  refine (conj Halice (conj Hbob _)).
  apply (order_by_id_ignores_caller env read_order1_alice read_order1_bob db
           (Toy.enc_Z 20) alice_token bob_token alice_claims bob_claims
           (or_introl eq_refl) eq_refl eq_refl Hheader1);
    [discriminate | exact Halice | exact Hheader2 | discriminate | exact Hbob].
Defined.

Lemma authorization_scheme_ignored_witness :
  lacks " " "Basic" = true /\
  authenticateToken env list_orders_basic db (fun user db => list_orders user db) =
  authenticateToken env list_orders_alice db (fun user db => list_orders user db).
Proof.
  split; [reflexivity|].
  destruct (authorization_scheme_ignored env list_orders_basic list_orders_alice db
              (fun user db => list_orders user db) "Basic" alice_token eq_refl eq_refl)
    as [Hsame _].
  apply Hsame. reflexivity.
Defined.

Lemma login_without_password_string_witness :
  query_string (field (body login_no_password) "email") = Some (String.eqb "a@x.com") /\
  login env login_no_password db = (db, json 500 (Message "Login failed")).
Proof.
  split; [reflexivity|].
  rewrite (login_without_password_string env login_no_password db (String.eqb "a@x.com")).
  - reflexivity.
  - reflexivity.
  - intros data. vm_compute. discriminate.
Defined.

Lemma register_without_password_string_witness :
  query_string (field (body register_no_password) "email") = Some (String.eqb "c@x.com") /\
  register env register_no_password db =
    (db, json 500 (Message "User registration failed")).
Proof.
  split; [reflexivity|].
  rewrite (register_without_password_string env register_no_password db
             (String.eqb "carol") (String.eqb "c@x.com")).
  - reflexivity.
  - reflexivity.
  - reflexivity.
  - intros data. vm_compute. discriminate.
Defined.

Lemma register_login_authenticate_witness :
  field (body register_carol) "password" = JStr "pw3" /\
  status (register env register_carol db).2 = 201 /\
  exists token,
    login env login_carol (register env register_carol db).1 =
      ((register env register_carol db).1, json 200 (LoginJson "Login successful" token)).
Proof.
  split; [reflexivity|].
  destruct (register_login_authenticate env register_carol db "carol" "c@x.com" "pw3"
              ToyLaws.string_condition ToyLaws.string_cast ToyLaws.hash_nonempty
              ToyLaws.compare_hash ToyLaws.jwt_defined ToyLaws.jwt_shape
              ToyLaws.jwt_round_trip eq_refl eq_refl eq_refl)
    as [Hstatus Hlogin].
  - discriminate.
  - discriminate.
  - repeat constructor; discriminate.
  - split; [exact Hstatus|].
    destruct (Hlogin env login_carol) as (token & Hanswer & _).
    + discriminate.
    + reflexivity.
    + reflexivity.
    + by exists token.
Defined.

Lemma created_order_is_listed_witness :
  status (create_order env alice_claims create_order_alice db).2 = 201 /\
  (list_orders bob_claims (create_order env alice_claims create_order_alice db).1).2 =
  (list_orders bob_claims db).2.
Proof.
  assert (Hstatus : status (create_order env alice_claims create_order_alice db).2 = 201)
    by (vm_compute; reflexivity).
  split; [exact Hstatus|].
  destruct (created_order_is_listed env alice_claims create_order_alice db
              (create_order env alice_claims create_order_alice db).1
              (create_order env alice_claims create_order_alice db).2
              (surjective_pairing _) Hstatus) as (order & _ & Howner & _ & Hothers).
  apply (Hothers bob_claims (u_id bob)); [reflexivity|].
  intros Hsame. rewrite <- Hsame in Howner. vm_compute in Howner. discriminate.
Defined.


Lemma update_user_conflict_witness :
  findById u_id (Toy.enc_Z 2) (users db) = Some (Some bob) /\
  u_email alice = "a@x.com" /\
  update_user env (Toy.enc_Z 2) bob_takes_email db =
    (db, json 500 (Message "Failed to update user")).
Proof.
  refine (conj eq_refl (conj eq_refl _)).
  apply (update_user_conflict env (Toy.enc_Z 2) bob_takes_email db bob alice "a@x.com"
           ToyLaws.string_cast eq_refl).
  - apply list_elem_of_here.
  - discriminate.
  - discriminate.
  - right. split; reflexivity.
Defined.

Lemma update_user_merges_witness :
  status (update_user env (Toy.enc_Z 2) bob_renames db).2 = 200 /\
  exists new,
    payload (update_user env (Toy.enc_Z 2) bob_renames db).2 = UserJson new /\
    u_username new = "robert".
Proof.
  assert (Hstatus : status (update_user env (Toy.enc_Z 2) bob_renames db).2 = 200)
    by (vm_compute; reflexivity).
  split; [exact Hstatus|].
  destruct (update_user_merges env (Toy.enc_Z 2) bob_renames db
              (update_user env (Toy.enc_Z 2) bob_renames db).1
              (update_user env (Toy.enc_Z 2) bob_renames db).2
              ToyLaws.string_cast (surjective_pairing _) Hstatus)
    as (old & new & _ & _ & Hpayload & _ & Hname & _).
  exists new. split; [exact Hpayload|].
  vm_compute in Hname. by injection Hname.
Defined.

Lemma create_product_validates_witness :
  field (body nameless_product) "name" = JStr "" /\
  create_product env nameless_product db = (db, json 400 ErrorMessage).
Proof.
  split; [reflexivity|].
  rewrite (create_product_validates env nameless_product db "" "tools" "no name" 0
             ToyLaws.string_cast ToyLaws.number_cast eq_refl eq_refl eq_refl eq_refl).
  - reflexivity.
  - repeat constructor; discriminate.
Defined.

Lemma deleted_product_reads_as_null_witness :
  castObjectId (JStr (Toy.enc_Z 10)) = Some (p_id widget) /\
  populate db order1 = (order1, Some widget) /\
  populate (delete_product (Toy.enc_Z 10) db).1 order1 = (order1, None).
Proof.
  split; [reflexivity|].
  destruct (deleted_product_reads_as_null (Toy.enc_Z 10) db widget eq_refl)
    as (_ & _ & Hnull).
  - apply (bool_decide_unpack _). vm_compute. exact I.
  - apply list_elem_of_here.
  - destruct (Hnull order1 eq_refl) as [Hafter Hbefore]. by split.
Defined.

Lemma order_routes_ignore_users_witness :
  is_order_route (route list_orders_alice) = true /\
  app env list_orders_alice (set_users db []) =
    (set_users (app env list_orders_alice db).1 [], (app env list_orders_alice db).2).
Proof.
  split; [reflexivity|].
  apply (order_routes_ignore_users env list_orders_alice db [] eq_refl).
Defined.

Lemma missing_field_is_rejected_witness :
  cast_undefined Toy.mongoose /\
  body order_without_quantity !! "quantity" = None /\
  create_order env alice_claims order_without_quantity db = (db, json 400 ErrorMessage).
Proof.
  assert (Hcasts : cast_undefined Toy.mongoose) by (repeat split).
  refine (conj Hcasts (conj eq_refl _)).
  destruct (missing_field_is_rejected env alice_claims order_without_quantity db Hcasts)
    as [Horder _].
  apply Horder. right. reflexivity.
Defined.
